(** * AI Learning Insight API (main.py): a shallow embedding and its properties

    The service classifies a learner's five behavioural metrics into a
    cluster and answers with a templated insight.  This development embeds
    the module-level artifact loading, the two static tables, the
    [str.format] fragment the templates exercise, the row helper and the
    endpoints of [main.py], and proves properties of them.

    Conventions.
    - A Python [float] is an IEEE 754 value, represented by [spec_float]
      (sign, integer mantissa, binary exponent; zeros, infinities, NaN).
    - A Python [int] is a [Z]; a [str] is a [string]; a [dict] is a [gmap].
    - A raised exception is the left summand of [result]; endpoints read the
      module globals through the state-passing type [Handler]. *)

From Stdlib Require Import Floats.SpecFloat Ascii.
From stdpp Require Import gmap strings list pretty.

Open Scope Z_scope.
Open Scope string_scope.

(** ** Exceptions and results *)

Inductive exn :=
| HTTPException (status_code : Z) (detail : string)
| RequestValidationError (loc : string)
| ValueError (msg : string)
| KeyError (key : string)
| IndexError
| OSError (msg : string)
| UnpicklingError
| NotModelled (what : string).

Definition result (A : Type) : Type := exn + A.

Definition raise {A} (e : exn) : result A := inl e.

#[global] Instance result_ret : MRet result := λ A x, inr x.
#[global] Instance result_bind : MBind result := λ A B f m,
  match m with inl e => inl e | inr x => f x end.
#[global] Instance result_fmap : FMap result := λ A B f m,
  match m with inl e => inl e | inr x => inr (f x) end.

(** ** Python floats and the fixed-point presentation [format(x, ".Nf")] *)

Definition float := spec_float.

Definition is_finite (x : float) : bool :=
  match x with
  | S754_zero _ | S754_finite _ _ _ => true
  | S754_infinity _ | S754_nan => false
  end.

(** [num / den] rounded to the nearest integer, ties to the even one: the
    rounding of the correctly rounded decimal conversion behind
    [float.__format__]. *)
Definition round_half_even (num den : N) : N :=
  let q := (num `div` den)%N in
  let r := (num `mod` den)%N in
  match (2 * r ?= den)%N with
  | Lt => q
  | Gt => (q + 1)%N
  | Eq => if N.even q then q else (q + 1)%N
  end.

(** The integer nearest to [m * 2^e * 10^p]. *)
Definition scaled (p : nat) (m : positive) (e : Z) : N :=
  match e with
  | Zneg k => round_half_even (Npos m * 10 ^ N.of_nat p) (2 ^ Npos k)
  | _ => (Npos m * 2 ^ Z.to_N e * 10 ^ N.of_nat p)%N
  end.

(** The last [p] decimal digits of [r], most significant first. *)
Fixpoint frac_digits (p : nat) (r : N) (acc : string) : string :=
  match p with
  | O => acc
  | S p' => frac_digits p' (r `div` 10)%N (String (pretty_N_char (r `mod` 10)%N) acc)
  end.

(** [q] read as a number with [p] digits after the point; no point at all
    when [p = 0]. *)
Definition fixed_digits (p : nat) (q : N) : string :=
  let int_part := pretty (q `div` 10 ^ N.of_nat p)%N in
  match p with
  | O => int_part
  | S _ => int_part +:+ "." +:+ frac_digits p q ""
  end.

Definition sign_text (s : bool) : string := if s then "-" else "".

(** [format(x, ".pf")]: the sign is kept on negative zero and on values that
    round to zero; the sign of NaN is dropped. *)
Definition format_f (p : nat) (x : float) : string :=
  match x with
  | S754_nan => "nan"
  | S754_infinity s => sign_text s +:+ "inf"
  | S754_zero s => sign_text s +:+ fixed_digits p 0
  | S754_finite s m e => sign_text s +:+ fixed_digits p (scaled p m e)
  end.

(** Number of characters after the first decimal point of a rendered
    number, 0 when there is none. *)
Fixpoint decimal_places (s : string) : nat :=
  match s with
  | EmptyString => O
  | String c s' => if Ascii.eqb c "."%char then String.length s' else decimal_places s'
  end.

(** Some floats, written as sign, mantissa and exponent. *)
Definition f_2 : float := S754_finite false 1 1.
Definition f_1_5 : float := S754_finite false 3 (-1).
Definition f_3 : float := S754_finite false 3 0.
Definition f_0_05 : float := S754_finite false 3602879701896397 (-56).
Definition f_88 : float := S754_finite false 11 3.
Definition f_0_125 : float := S754_finite false 1 (-3).
Definition f_2_5 : float := S754_finite false 5 (-1).
Definition f_neg_0_4 : float := S754_finite true 3602879701896397 (-53).

(** ** [str.format] on the templates

    The fragment of the format mini-language that [CLUSTER_TEMPLATES] uses:
    literal text, the escapes [{{] and [}}], and replacement fields
    [{name:.Nf}] whose name is a keyword argument.  The string is consumed
    left to right and the first failure is the one raised, as in Python.
    A construct outside the fragment (conversions, attribute or index
    lookups, positional fields, other format specs) answers [NotModelled]. *)

Inductive item :=
| Literal (text : string)
| Replaced (name spec text : string).

Definition item_text (i : item) : string :=
  match i with Literal t => t | Replaced _ _ t => t end.

Definition is_digit (c : ascii) : bool :=
  let n := nat_of_ascii c in (48 <=? n)%nat && (n <=? 57)%nat.

Fixpoint all_chars (P : ascii -> bool) (s : string) : bool :=
  match s with
  | EmptyString => true
  | String c s' => P c && all_chars P s'
  end.

(** The decimal number spelled by a string of digits. *)
Fixpoint digits_value (s : string) (acc : nat) : nat :=
  match s with
  | EmptyString => acc
  | String c s' => digits_value s' (10 * acc + (nat_of_ascii c - 48))%nat
  end.

Fixpoint string_rev (s : string) (acc : string) : string :=
  match s with
  | EmptyString => acc
  | String c s' => string_rev s' (String c acc)
  end.

(** A spec of the shape [.Nf]: its precision [N]. *)
Definition parse_spec (spec : string) : option nat :=
  match spec with
  | String dot rest =>
      match string_rev rest "" with
      | String f digits_rev =>
          if Ascii.eqb dot "."%char && Ascii.eqb f "f"%char
             && all_chars is_digit digits_rev
             && negb (String.eqb digits_rev "")
          then Some (digits_value (string_rev digits_rev "") 0)
          else None
      | EmptyString => None
      end
  | EmptyString => None
  end.

(** A field name that is a bare keyword: no conversion, attribute or index,
    and not positional. *)
Definition plain_name (name : string) : bool :=
  match name with
  | EmptyString => false
  | String c _ =>
      negb (is_digit c)
      && all_chars (fun a => negb (Ascii.eqb a "!"%char || Ascii.eqb a "."%char
                                   || Ascii.eqb a "["%char)) name
  end.

(** Splits the inside of a replacement field at its first colon. *)
Fixpoint split_field (body : string) (name_rev : string) : string * string :=
  match body with
  | EmptyString => (string_rev name_rev "", "")
  | String c rest =>
      if Ascii.eqb c ":"%char then (string_rev name_rev "", rest)
      else split_field rest (String c name_rev)
  end.

Definition render_field (kwargs : gmap string float) (body : string) : result item :=
  let '(name, spec) := split_field body "" in
  if plain_name name then
    match kwargs !! name with
    | None => raise (KeyError name)
    | Some x =>
        match parse_spec spec with
        | Some p => mret (Replaced name spec (format_f p x))
        | None => raise (NotModelled "format spec")
        end
    end
  else raise (NotModelled "field name").

(** Appends a literal character in front of the items that follow it. *)
Definition push_char (c : ascii) (items : list item) : list item :=
  match items with
  | Literal t :: rest => Literal (String c t) :: rest
  | _ => Literal (String c "") :: items
  end.

Fixpoint markup (kwargs : gmap string float) (s : string) : result (list item) :=
  match s with
  | EmptyString => mret []
  | String c rest =>
      if Ascii.eqb c "{"%char then
        match rest with
        | String c2 rest2 =>
            if Ascii.eqb c2 "{"%char
            then push_char c <$> markup kwargs rest2
            else markup_field kwargs rest ""
        | EmptyString => raise (ValueError "Single '{' encountered in format string")
        end
      else if Ascii.eqb c "}"%char then
        match rest with
        | String c2 rest2 =>
            if Ascii.eqb c2 "}"%char
            then push_char c <$> markup kwargs rest2
            else raise (ValueError "Single '}' encountered in format string")
        | EmptyString => raise (ValueError "Single '}' encountered in format string")
        end
      else push_char c <$> markup kwargs rest
  end
with markup_field (kwargs : gmap string float) (s : string) (body_rev : string)
  : result (list item) :=
  match s with
  | EmptyString => raise (ValueError "expected '}' before end of string")
  | String c rest =>
      if Ascii.eqb c "}"%char then
        i ← render_field kwargs (string_rev body_rev "");
        items ← markup kwargs rest;
        mret (i :: items)
      else if Ascii.eqb c "{"%char then raise (NotModelled "nested field")
      else markup_field kwargs rest (String c body_rev)
  end.

(** [template.format] with keyword arguments [kwargs] *)
Definition format (template : string) (kwargs : gmap string float) : result string :=
  items ← markup kwargs template;
  mret (String.concat "" (item_text <$> items)).

(** ** Artifacts and module globals *)

(** The pickled scaler and clustering model are opaque objects; only the
    methods [predict_cluster] calls on them are modelled, as total functions
    on a batch of samples. *)
Record Scaler := { transform : list (list float) -> list (list float) }.
Record KMeans := { predict : list (list float) -> list Z }.

(** A row of [df_clustered], with the columns the code reads: an integer
    id, a name, the integer cluster label left by [astype(int)], and five
    numeric columns read as floats. *)
Record LearnerRecord := {
  row_developer_id : Z;
  row_developer_name : string;
  row_cluster_label : Z;
  row_total_active_days : float;
  row_avg_completion_time_hours : float;
  row_total_journeys_completed : float;
  row_rejection_ratio : float;
  row_avg_exam_score : float;
}.

Record Globals := {
  scaler : option Scaler;
  kmeans : option KMeans;
  df_clustered : option (list LearnerRecord);
}.

(** What [pd.read_csv] hands back: the column names, and what the later
    [df["cluster_label"].astype(int)] does on this frame (the rows with an
    integer cluster label, or the exception [astype] raises). *)
Record CsvFrame := {
  columns : list string;
  cluster_label_astype_int : result (list LearnerRecord);
}.

(** The outcome of each of the three reads of the [try] block.
    [pickle.load] raises, or returns what the file holds: [None], or an
    object with the methods above.  The code assigns that value as it is. *)
Record Disk := {
  scaler_pkl : result (option Scaler);
  kmeans_model_pkl : result (option KMeans);
  clustered_students_csv : result CsvFrame;
}.

Definition REQUIRED_COLS : list string :=
  [ "developer_id"; "developer_name"; "cluster_label"; "total_active_days";
    "avg_completion_time_hours"; "total_journeys_completed"; "rejection_ratio";
    "avg_exam_score" ].

(** [repr] of a list of plain strings. *)
Definition repr_list (l : list string) : string :=
  "[" +:+ String.concat ", " ((fun s => "'" +:+ s +:+ "'") <$> l) +:+ "]".

(** The body of the [try] block. *)
Definition load_try (d : Disk)
  : result (option Scaler * option KMeans * list LearnerRecord) :=
  sc ← scaler_pkl d;
  km ← kmeans_model_pkl d;
  raw ← clustered_students_csv d;
  let missing_cols := filter (fun c => c ∉ columns raw) REQUIRED_COLS in
  if bool_decide (missing_cols = [])
  then df ← cluster_label_astype_int raw; mret (sc, km, df)
  else raise (ValueError
         ("Kolom berikut tidak ditemukan di clustered_students.csv: "
          +:+ repr_list missing_cols)).

(** The [try]/[except] at module level: any exception clears all three;
    without one, the globals are what the three reads returned. *)
Definition load_artifacts (d : Disk) : Globals :=
  match load_try d with
  | inr (sc, km, df) =>
      {| scaler := sc; kmeans := km; df_clustered := Some df |}
  | inl _ => {| scaler := None; kmeans := None; df_clustered := None |}
  end.

(** ** The static tables *)

Definition CLUSTER_PROFILES : gmap Z (gmap string string) :=
  {[ 0 := {[ "label_id" := "Fast Learner";
             "short_description" :=
               "Aktivitas belajar masih jarang, tetapi ketika mulai belajar mampu menyelesaikan modul dengan sangat cepat "
               +:+ "dan mempertahankan nilai ujian yang cukup baik. Volume journey relatif rendah dan hampir tidak ada revisi submission.";
             "concept_tag" := "fast_learner" ]};
     1 := {[ "label_id" := "Consistent Learner";
             "short_description" :=
               "Belajar secara konsisten, menyelesaikan banyak journey, dan memiliki nilai ujian yang tinggi. "
               +:+ "Tingkat refleksi berada pada kisaran sedang.";
             "concept_tag" := "consistent_learner" ]};
     2 := {[ "label_id" := "Reflective Learner";
             "short_description" :=
               "Sangat sering aktif dan menyelesaikan banyak journey, namun membutuhkan waktu yang panjang per modul. "
               +:+ "Cenderung mengulas materi secara mendalam.";
             "concept_tag" := "reflective_learner" ]};
     3 := {[ "label_id" := "Struggling Learner";
             "short_description" :=
               "Cukup aktif dan banyak bereksperimen dengan submission (revisi tinggi), "
               +:+ "namun nilai ujian relatif rendah sehingga masih perlu penguatan konsep.";
             "concept_tag" := "struggling_learner" ]} ]}.

Definition CLUSTER_TEMPLATES : gmap Z string :=
  {[ 0 :=
       "Aktivitas belajarmu masih jarang (sekitar {active_days:.0f} hari aktif), "
       +:+ "tetapi ketika mulai belajar kamu bergerak sangat cepat dengan rata-rata waktu selesai "
       +:+ "sekitar {avg_time_hours:.1f} jam per modul. Kamu telah menyelesaikan sekitar {journeys:.0f} journey "
       +:+ "dengan nilai ujian rata-rata {score:.0f}. Cobalah meningkatkan frekuensi belajar agar dampak "
       +:+ "pembelajaranmu lebih konsisten.";
     1 :=
       "Kamu belajar secara cukup konsisten (sekitar {active_days:.0f} hari aktif) dan telah menyelesaikan "
       +:+ "sekitar {journeys:.0f} journey. Nilai ujian rata-ratamu tinggi, yaitu sekitar {score:.0f}. "
       +:+ "Tingkat refleksi melalui submission yang ditolak berada di kisaran {rejection_ratio:.2f}. "
       +:+ "Pertahankan pola belajar ini dan gunakan umpan balik untuk terus menyempurnakan pemahamanmu.";
     2 :=
       "Kamu sangat tekun dengan sekitar {active_days:.0f} hari aktif dan telah menyelesaikan "
       +:+ "sekitar {journeys:.0f} journey. Rata-rata waktu yang kamu habiskan per modul cukup panjang, "
       +:+ "sekitar {avg_time_hours:.1f} jam. Nilai ujian rata-ratamu sekitar {score:.0f}. "
       +:+ "Pertahankan kedalaman belajarmu, namun pertimbangkan pengelolaan waktu belajar yang lebih efisien.";
     3 :=
       "Kamu cukup aktif belajar (sekitar {active_days:.0f} hari aktif) dan telah menyelesaikan "
       +:+ "sekitar {journeys:.0f} journey. Rata-rata nilai ujianmu saat ini sekitar {score:.0f}, "
       +:+ "dengan rasio submission ditolak sekitar {rejection_ratio:.2f}. Ini menunjukkan kamu banyak "
       +:+ "bereksperimen, tetapi masih perlu memperkuat pemahaman konsep dasar. Manfaatkan kembali materi, "
       +:+ "contoh solusi, dan umpan balik dari submission untuk meningkatkan hasil ujian." ]}.

(** ** Request and response schemas *)

Record InsightResponse := {
  developer_id : Z;
  developer_name : string;
  cluster_id : Z;
  cluster_label : string;
  concept_tag : option string;
  short_description : string;
  insight_text : string;
}.

Record PredictRequest := {
  total_active_days : float;
  avg_completion_time_hours : float;
  total_journeys_completed : float;
  rejection_ratio : float;
  avg_exam_score : float;
  req_developer_id : option Z;
  req_developer_name : option string;
}.

Record PredictResponse := {
  p_developer_id : option Z;
  p_developer_name : option string;
  p_cluster_id : Z;
  p_cluster_label : string;
  p_concept_tag : option string;
  p_short_description : string;
  p_insight_text : string;
}.

Record HealthResponse := {
  status : string;
  model_loaded : bool;
  data_loaded : bool;
}.

(** ** Helper: the insight of one row *)

(** The keyword arguments both call sites pass to [template.format]. *)
Definition format_kwargs (active_days avg_time_hours journeys rejection score : float)
  : gmap string float :=
  {[ "active_days" := active_days;
     "avg_time_hours" := avg_time_hours;
     "journeys" := journeys;
     "rejection_ratio" := rejection;
     "score" := score ]}.

(** The f-string [f"Cluster {cluster_id}"]. *)
Definition fallback_label (cluster_id : Z) : string := "Cluster " +:+ pretty cluster_id.

Definition generate_insight_for_row (row : LearnerRecord) : result InsightResponse :=
  let cluster_id := row_cluster_label row in
  let profile := default ∅ (CLUSTER_PROFILES !! cluster_id) in
  let template := default "" (CLUSTER_TEMPLATES !! cluster_id) in
  insight_text ← format template
    (format_kwargs (row_total_active_days row) (row_avg_completion_time_hours row)
       (row_total_journeys_completed row) (row_rejection_ratio row)
       (row_avg_exam_score row));
  mret {| developer_id := row_developer_id row;
          developer_name := row_developer_name row;
          cluster_id := cluster_id;
          cluster_label := default (fallback_label cluster_id) (profile !! "label_id");
          concept_tag := profile !! "concept_tag";
          short_description := default "" (profile !! "short_description");
          insight_text := insight_text |}.

(** ** Endpoints

    An endpoint runs against the module globals and hands them back together
    with its answer or the exception it raised. *)

Definition Handler (A : Type) : Type := Globals -> Globals * result A.

#[global] Instance handler_ret : MRet Handler := λ A x g, (g, inr x).
#[global] Instance handler_bind : MBind Handler := λ A B f m g,
  match m g with
  | (g', inl e) => (g', inl e)
  | (g', inr x) => f x g'
  end.

Definition read_globals : Handler Globals := fun g => (g, inr g).
Definition throw {A} (e : exn) : Handler A := fun g => (g, inl e).
Definition lift {A} (r : result A) : Handler A := fun g => (g, r).

Definition answer {A} (h : Handler A) (g : Globals) : result A := snd (h g).
Definition globals_after {A} (h : Handler A) (g : Globals) : Globals := fst (h g).

Definition health_check : Handler HealthResponse :=
  g ← read_globals;
  mret {| status := "ok";
          model_loaded := bool_decide (kmeans g ≠ None) && bool_decide (scaler g ≠ None);
          data_loaded := bool_decide (df_clustered g ≠ None) |}.

Definition get_insight_by_developer_id (developer_id : Z) : Handler InsightResponse :=
  g ← read_globals;
  match df_clustered g with
  | None => throw (HTTPException 500 "Data clustering belum ter-load.")
  | Some df =>
      let row := filter (fun r => row_developer_id r = developer_id) df in
      match row with
      | [] => throw (HTTPException 404 "Developer ID tidak ditemukan di data clustering.")
      | row0 :: _ => lift (generate_insight_for_row row0)
      end
  end.

(** [DataFrame.head(n)]: the first [n] rows, or all but the last [-n] rows
    when [n] is negative. *)
Definition head_rows {A} (n : Z) (df : list A) : list A :=
  if bool_decide (0 <= n) then take (Z.to_nat n) df
  else take (length df - Z.to_nat (- n)) df.

(** The body of [list_insights], for a [limit] that passed validation. *)
Definition list_insights (limit : Z) : Handler (list InsightResponse) :=
  g ← read_globals;
  match df_clustered g with
  | None => throw (HTTPException 500 "Data clustering belum ter-load.")
  | Some df =>
      let subset := head_rows limit df in
      lift (mapM generate_insight_for_row subset)
  end.

(** A query parameter declared as [Query(default, ge=.., le=..)]: the
    framework uses the default when the parameter is not sent, and answers
    with a validation error, without calling the endpoint, when the value
    sent is out of the bounds. *)
Record Query := { q_default : Z; q_ge : Z; q_le : Z }.

Definition validate (name : string) (q : Query) (sent : option Z) : result Z :=
  match sent with
  | None => mret (q_default q)
  | Some v =>
      if bool_decide (q_ge q <= v) && bool_decide (v <= q_le q)
      then mret v else raise (RequestValidationError name)
  end.

Definition limit_query : Query := {| q_default := 10; q_ge := 1; q_le := 100 |}.

(** [GET /insights?limit=..] as the framework serves it. *)
Definition list_insights_route (sent : option Z) : Handler (list InsightResponse) :=
  limit ← lift (validate "limit" limit_query sent);
  list_insights limit.

(** [l[0]] *)
Definition index0 {A} (l : list A) : result A :=
  match l with
  | [] => raise IndexError
  | x :: _ => mret x
  end.

(** [s or "Unknown"] on an optional string: [None] and the empty string are
    the falsy values. *)
Definition or_unknown (s : option string) : string :=
  match s with
  | Some (String c t) => String c t
  | Some EmptyString | None => "Unknown"
  end.

Definition predict_cluster (payload : PredictRequest) : Handler PredictResponse :=
  g ← read_globals;
  match scaler g, kmeans g with
  | Some sc, Some km =>
      let X := [[ total_active_days payload;
                  avg_completion_time_hours payload;
                  total_journeys_completed payload;
                  rejection_ratio payload;
                  avg_exam_score payload ]] in
      let X_scaled := transform sc X in
      cluster_id ← lift (index0 (predict km X_scaled));
      let profile := default ∅ (CLUSTER_PROFILES !! cluster_id) in
      let template := default "" (CLUSTER_TEMPLATES !! cluster_id) in
      insight_text ← lift (format template
        (format_kwargs (total_active_days payload) (avg_completion_time_hours payload)
           (total_journeys_completed payload) (rejection_ratio payload)
           (avg_exam_score payload)));
      mret {| p_developer_id := req_developer_id payload;
              p_developer_name := Some (or_unknown (req_developer_name payload));
              p_cluster_id := cluster_id;
              p_cluster_label := default (fallback_label cluster_id) (profile !! "label_id");
              p_concept_tag := profile !! "concept_tag";
              p_short_description := default "" (profile !! "short_description");
              p_insight_text := insight_text |}
  | _, _ => throw (HTTPException 500 "Model belum ter-load.")
  end.

Definition ModelUnavailable : exn := HTTPException 500 "Model belum ter-load.".
Definition DatasetUnavailable : exn := HTTPException 500 "Data clustering belum ter-load.".
Definition NotFound : exn := HTTPException 404 "Developer ID tidak ditemukan di data clustering.".

(** ** Sample data *)

Definition stub_scaler : Scaler := {| transform := fun X => X |}.
Definition stub_kmeans (c : Z) : KMeans := {| predict := fun X => (fun _ => c) <$> X |}.

Definition sample_features (name : option string) : PredictRequest :=
  {| total_active_days := f_2; avg_completion_time_hours := f_1_5;
     total_journeys_completed := f_3; rejection_ratio := f_0_05;
     avg_exam_score := f_88; req_developer_id := None; req_developer_name := name |}.

Definition sample_row (id : Z) (name : string) (c : Z) : LearnerRecord :=
  {| row_developer_id := id; row_developer_name := name; row_cluster_label := c;
     row_total_active_days := f_2; row_avg_completion_time_hours := f_1_5;
     row_total_journeys_completed := f_3; row_rejection_ratio := f_0_05;
     row_avg_exam_score := f_88 |}.

Definition sample_df : list LearnerRecord :=
  [ sample_row 11 "Ani" 0; sample_row 12 "Budi" 1; sample_row 13 "Citra" 3;
    sample_row 14 "Dewi" 7 ].

Definition sample_globals (c : Z) : Globals :=
  {| scaler := Some stub_scaler; kmeans := Some (stub_kmeans c);
     df_clustered := Some sample_df |}.

Definition no_globals : Globals :=
  {| scaler := None; kmeans := None; df_clustered := None |}.

(** ** Vocabulary of the statements *)

(** The batch [X] that [predict_cluster] builds from the payload. *)
Definition request_matrix (payload : PredictRequest) : list (list float) :=
  [[ total_active_days payload; avg_completion_time_hours payload;
     total_journeys_completed payload; rejection_ratio payload;
     avg_exam_score payload ]].

(** The keyword arguments [predict_cluster] formats the template with. *)
Definition request_kwargs (payload : PredictRequest) : gmap string float :=
  format_kwargs (total_active_days payload) (avg_completion_time_hours payload)
    (total_journeys_completed payload) (rejection_ratio payload)
    (avg_exam_score payload).

(** The keyword arguments [generate_insight_for_row] formats the template with. *)
Definition row_kwargs (row : LearnerRecord) : gmap string float :=
  format_kwargs (row_total_active_days row) (row_avg_completion_time_hours row)
    (row_total_journeys_completed row) (row_rejection_ratio row)
    (row_avg_exam_score row).

(** A replaced field is sound for [kwargs] when its name is one of the
    keywords, its spec is a fixed-point spec, and its text is the
    fixed-point rendering of the keyword's value. *)
Definition item_sound (kwargs : gmap string float) (i : item) : Prop :=
  match i with
  | Literal _ => True
  | Replaced name spec text =>
      exists x p, kwargs !! name = Some x /\ parse_spec spec = Some p
                  /\ text = format_f p x
  end.

(** Decimal places per slot, as the specification words them. *)
Definition stated_places (name : string) : nat :=
  if bool_decide (name = "avg_time_hours") || bool_decide (name = "rejection_ratio")
  then 2%nat else 0%nat.

(** Decimal places per slot, as the templates spell them. *)
Definition template_places (name : string) : nat :=
  if bool_decide (name = "avg_time_hours") then 1%nat
  else if bool_decide (name = "rejection_ratio") then 2%nat
  else 0%nat.

(** The spec of a replaced field asks for [places name] decimal places. *)
Definition spec_matches (places : string -> nat) (i : item) : bool :=
  match i with
  | Literal _ => true
  | Replaced name spec _ => bool_decide (parse_spec spec = Some (places name))
  end.

(** A replaced field shows the value of its slot with [places name]
    decimal places. *)
Definition item_rendered (places : string -> nat) (kwargs : gmap string float)
    (i : item) : Prop :=
  match i with
  | Literal _ => True
  | Replaced name _ text =>
      exists x, kwargs !! name = Some x /\ text = format_f (places name) x
                /\ decimal_places text = places name
  end.

(** The template of cluster [cid] formats with the five values, the insight
    text is the concatenation of its items, and every slot that occurs is
    rendered with [places] decimal places. *)
Definition insight_renders_with (places : string -> nat) (cid : Z)
    (a t j r s : float) : Prop :=
  exists tpl items,
    CLUSTER_TEMPLATES !! cid = Some tpl /\
    markup (format_kwargs a t j r s) tpl = inr items /\
    format tpl (format_kwargs a t j r s) = inr (String.concat "" (item_text <$> items)) /\
    Forall (item_rendered places (format_kwargs a t j r s)) items.

(** Two payloads carry the same five feature values. *)
Definition same_features (p1 p2 : PredictRequest) : Prop :=
  total_active_days p1 = total_active_days p2 /\
  avg_completion_time_hours p1 = avg_completion_time_hours p2 /\
  total_journeys_completed p1 = total_journeys_completed p2 /\
  rejection_ratio p1 = rejection_ratio p2 /\
  avg_exam_score p1 = avg_exam_score p2.

(** The part of a prediction that is computed from the features. *)
Definition prediction_core (resp : PredictResponse) : Z * string * string * string :=
  (p_cluster_id resp, p_cluster_label resp, p_short_description resp,
   p_insight_text resp).




(** Disks for the examples. *)
Definition good_frame : CsvFrame :=
  {| columns := "extra" :: REQUIRED_COLS; cluster_label_astype_int := inr sample_df |}.
Definition good_disk : Disk :=
  {| scaler_pkl := inr (Some stub_scaler); kmeans_model_pkl := inr (Some (stub_kmeans 0));
     clustered_students_csv := inr good_frame |}.
Definition disk_without_csv : Disk :=
  {| scaler_pkl := inr (Some stub_scaler); kmeans_model_pkl := inr (Some (stub_kmeans 0));
     clustered_students_csv := inl (OSError "clustered_students.csv") |}.
Definition disk_without_column : Disk :=
  {| scaler_pkl := inr (Some stub_scaler); kmeans_model_pkl := inr (Some (stub_kmeans 0));
     clustered_students_csv :=
       inr {| columns := ["developer_id"; "developer_name"; "cluster_label"];
              cluster_label_astype_int := inr sample_df |} |}.
(** A [scaler.pkl] that unpickles to [None], beside a good model and CSV. *)
Definition disk_scaler_none : Disk :=
  {| scaler_pkl := inr None; kmeans_model_pkl := inr (Some (stub_kmeans 0));
     clustered_students_csv := inr good_frame |}.

(** ** The cluster listing endpoint *)

Record ClusterProfileResponse := {
  cp_cluster_id : Z;
  cp_label_id : string;
  cp_concept_tag : option string;
  cp_short_description : string;
}.

(** The keys of the [CLUSTER_PROFILES] literal, in the order it writes them:
    the order in which a dict is iterated. *)
Definition CLUSTER_PROFILES_keys : list Z := [0; 1; 2; 3].

(** [d.items()] for a dict whose keys were inserted in the order [keys]. *)
Definition dict_items {V} (keys : list Z) (d : gmap Z V) : list (Z * V) :=
  omap (fun k => (fun v => (k, v)) <$> d !! k) keys.

(** The subscript [meta[key]], which raises on a missing key. *)
Definition getitem (meta : gmap string string) (key : string) : result string :=
  match meta !! key with
  | Some v => mret v
  | None => raise (KeyError key)
  end.

Definition list_clusters : Handler (list ClusterProfileResponse) :=
  lift (mapM (fun '(cid, meta) =>
                label_id ← getitem meta "label_id";
                short_description ← getitem meta "short_description";
                mret {| cp_cluster_id := cid;
                        cp_label_id := label_id;
                        cp_concept_tag := meta !! "concept_tag";
                        cp_short_description := short_description |})
          (dict_items CLUSTER_PROFILES_keys CLUSTER_PROFILES)).

(** ** More vocabulary *)

(** A character that is not a brace of a replacement field. *)
Definition no_brace (c : ascii) : bool :=
  negb (Ascii.eqb c "{"%char || Ascii.eqb c "}"%char).

(** The literal text of an item has no brace. *)
Definition literal_ok (i : item) : bool :=
  match i with
  | Literal t => all_chars no_brace t
  | Replaced _ _ _ => true
  end.

(** The items open with some literal text. *)
Definition starts_with_text (items : list item) : bool :=
  match items with
  | Literal (String _ _) :: _ => true
  | _ => false
  end.

(** The five feature values of a payload are those of a row. *)
Definition features_of_row (payload : PredictRequest) (row : LearnerRecord) : Prop :=
  total_active_days payload = row_total_active_days row /\
  avg_completion_time_hours payload = row_avg_completion_time_hours row /\
  total_journeys_completed payload = row_total_journeys_completed row /\
  rejection_ratio payload = row_rejection_ratio row /\
  avg_exam_score payload = row_avg_exam_score row.

(** A dataset with a repeated developer id, for the examples. *)
Definition df_with_duplicate : list LearnerRecord :=
  [ sample_row 11 "Ani" 0; sample_row 12 "Budi" 1; sample_row 12 "Budi lagi" 3 ].

(** * Properties *)

(** ** Worked examples *)

Example format_f_ex1 : format_f 0 f_2 = "2".
Proof. vm_compute. reflexivity. Qed.

Example format_f_ex2 : format_f 1 f_1_5 = "1.5".
Proof. vm_compute. reflexivity. Qed.

Example format_f_ex3 : format_f 2 f_0_05 = "0.05".
Proof. vm_compute. reflexivity. Qed.

Example format_f_ex4 : format_f 2 f_0_125 = "0.12".
Proof. vm_compute. reflexivity. Qed.

Example format_f_ex5 : format_f 0 f_2_5 = "2".
Proof. vm_compute. reflexivity. Qed.

Example format_f_ex6 : format_f 0 f_neg_0_4 = "-0".
Proof. vm_compute. reflexivity. Qed.

Example format_f_ex7 : format_f 0 f_88 = "88".
Proof. vm_compute. reflexivity. Qed.

Example format_f_ex8 : format_f 2 (S754_zero true) = "-0.00".
Proof. vm_compute. reflexivity. Qed.

Example format_f_ex9 : format_f 2 (S754_infinity true) = "-inf".
Proof. vm_compute. reflexivity. Qed.

Example format_ex1 :
  format "a {x:.1f} b {{y}} {x:.0f}" {[ "x" := f_1_5 ]} = inr "a 1.5 b {y} 2".
Proof. vm_compute. reflexivity. Qed.

Example format_ex2 : format "{z:.1f} }" {[ "x" := f_1_5 ]} = inl (KeyError "z").
Proof. vm_compute. reflexivity. Qed.

Example format_ex3 : format "" {[ "x" := f_1_5 ]} = inr "".
Proof. vm_compute. reflexivity. Qed.

Example predict_ex0 :
  answer (predict_cluster (sample_features None)) (sample_globals 0) =
  inr {| p_developer_id := None; p_developer_name := Some "Unknown";
         p_cluster_id := 0; p_cluster_label := "Fast Learner";
         p_concept_tag := Some "fast_learner";
         p_short_description := "Aktivitas belajar masih jarang, tetapi ketika mulai belajar mampu menyelesaikan modul dengan sangat cepat dan mempertahankan nilai ujian yang cukup baik. Volume journey relatif rendah dan hampir tidak ada revisi submission.";
         p_insight_text := "Aktivitas belajarmu masih jarang (sekitar 2 hari aktif), tetapi ketika mulai belajar kamu bergerak sangat cepat dengan rata-rata waktu selesai sekitar 1.5 jam per modul. Kamu telah menyelesaikan sekitar 3 journey dengan nilai ujian rata-rata 88. Cobalah meningkatkan frekuensi belajar agar dampak pembelajaranmu lebih konsisten." |}.
Proof. vm_compute. reflexivity. Qed.

Example predict_ex7 :
  answer (predict_cluster (sample_features (Some ""))) (sample_globals 7) =
  inr {| p_developer_id := None; p_developer_name := Some "Unknown";
         p_cluster_id := 7; p_cluster_label := "Cluster 7";
         p_concept_tag := None; p_short_description := ""; p_insight_text := "" |}.
Proof. vm_compute. reflexivity. Qed.

Example lookup_ex12 :
  insight_text <$> answer (get_insight_by_developer_id 12) (sample_globals 0) =
  inr "Kamu belajar secara cukup konsisten (sekitar 2 hari aktif) dan telah menyelesaikan sekitar 3 journey. Nilai ujian rata-ratamu tinggi, yaitu sekitar 88. Tingkat refleksi melalui submission yang ditolak berada di kisaran 0.05. Pertahankan pola belajar ini dan gunakan umpan balik untuk terus menyempurnakan pemahamanmu.".
Proof. vm_compute. reflexivity. Qed.

Example lookup_ex99 : answer (get_insight_by_developer_id 99) (sample_globals 0) = inl NotFound.
Proof. vm_compute. reflexivity. Qed.

(** ** Fixed-point rendering: the number of decimal places *)

Definition not_dot (c : ascii) : bool := negb (Ascii.eqb c "."%char).

Lemma pretty_N_char_not_dot d : not_dot (pretty_N_char d) = true.
Proof. unfold pretty_N_char. by repeat case_match. Qed.

Lemma all_chars_pretty_N_go (P : ascii -> bool) x s :
  (forall d, P (pretty_N_char d) = true) ->
  all_chars P s = true -> all_chars P (pretty_N_go x s) = true.
Proof.
  intros HP. revert s.
  induction (N.lt_wf_0 x) as [x _ IH]; intros s Hs.
  destruct (decide (x = 0%N)) as [->|Hx].
  - by rewrite pretty_N_go_0.
  - rewrite pretty_N_go_step by lia.
    apply IH; [apply N.div_lt; lia|].
    simpl. by rewrite HP, Hs.
Qed.

Lemma all_chars_pretty_N (P : ascii -> bool) (x : N) :
  (forall d, P (pretty_N_char d) = true) -> all_chars P (pretty x) = true.
Proof.
  intros HP. unfold pretty, pretty_N. case_decide.
  - pose proof (HP 0%N) as H0. simpl in *. by rewrite H0.
  - by apply all_chars_pretty_N_go.
Qed.

Lemma decimal_places_app s t :
  all_chars not_dot s = true -> decimal_places (s +:+ t) = decimal_places t.
Proof.
  induction s as [|c s IH]; simpl; [done|].
  intros [Hc Hs]%andb_prop. unfold not_dot in Hc.
  destruct (Ascii.eqb c "."); [done|]. by apply IH.
Qed.

Lemma decimal_places_no_dot s : all_chars not_dot s = true -> decimal_places s = 0%nat.
Proof.
  induction s as [|c s IH]; simpl; [done|].
  intros [Hc Hs]%andb_prop. unfold not_dot in Hc.
  destruct (Ascii.eqb c "."); [done|]. by apply IH.
Qed.

Lemma frac_digits_length p r acc :
  String.length (frac_digits p r acc) = (p + String.length acc)%nat.
Proof.
  revert r acc. induction p as [|p IH]; intros r acc; simpl; [done|].
  rewrite IH. simpl. lia.
Qed.

Lemma decimal_places_fixed_digits p q : decimal_places (fixed_digits p q) = p.
Proof.
  unfold fixed_digits. destruct p as [|p].
  - apply decimal_places_no_dot, all_chars_pretty_N, pretty_N_char_not_dot.
  - rewrite decimal_places_app
      by apply all_chars_pretty_N, pretty_N_char_not_dot.
    change (decimal_places (String "." (frac_digits (S p) q "")) = S p).
    cbn [decimal_places].
    rewrite frac_digits_length. simpl. lia.
Qed.

Lemma decimal_places_format_f p x :
  is_finite x = true -> decimal_places (format_f p x) = p.
Proof.
  destruct x as [s|s| |s m e]; simpl; try done; intros _;
    (rewrite decimal_places_app; [apply decimal_places_fixed_digits|by destruct s]).
Qed.

(** ** The tables: which ids they know *)

Lemma CLUSTER_TEMPLATES_dom cid :
  is_Some (CLUSTER_TEMPLATES !! cid) <-> cid = 0 \/ cid = 1 \/ cid = 2 \/ cid = 3.
Proof.
  unfold CLUSTER_TEMPLATES. rewrite !lookup_insert_is_Some, lookup_singleton_is_Some.
  lia.
Qed.

Lemma CLUSTER_PROFILES_dom cid :
  is_Some (CLUSTER_PROFILES !! cid) <-> cid = 0 \/ cid = 1 \/ cid = 2 \/ cid = 3.
Proof.
  unfold CLUSTER_PROFILES. rewrite !lookup_insert_is_Some, lookup_singleton_is_Some.
  lia.
Qed.

Lemma CLUSTER_TEMPLATES_unknown cid :
  CLUSTER_TEMPLATES !! cid = None <-> cid <> 0 /\ cid <> 1 /\ cid <> 2 /\ cid <> 3.
Proof. rewrite eq_None_not_Some, CLUSTER_TEMPLATES_dom. lia. Qed.

Lemma CLUSTER_PROFILES_unknown cid :
  CLUSTER_PROFILES !! cid = None <-> cid <> 0 /\ cid <> 1 /\ cid <> 2 /\ cid <> 3.
Proof. rewrite eq_None_not_Some, CLUSTER_PROFILES_dom. lia. Qed.

(** The two tables have the same keys. *)
Lemma tables_same_keys cid :
  CLUSTER_PROFILES !! cid = None <-> CLUSTER_TEMPLATES !! cid = None.
Proof. by rewrite CLUSTER_PROFILES_unknown, CLUSTER_TEMPLATES_unknown. Qed.

(** ** What [str.format] puts in a replacement field *)

Lemma render_field_sound kwargs body i :
  render_field kwargs body = inr i -> item_sound kwargs i.
Proof.
  unfold render_field. destruct (split_field body "") as [name spec].
  destruct (plain_name name); [|discriminate].
  destruct (kwargs !! name) as [x|] eqn:Hx; [|discriminate].
  destruct (parse_spec spec) as [p|] eqn:Hp; [|discriminate].
  intros [= <-]. simpl. eauto.
Qed.

Lemma push_char_sound kwargs c items :
  Forall (item_sound kwargs) items -> Forall (item_sound kwargs) (push_char c items).
Proof.
  destruct 1 as [|[t|name spec text] items Hi Hitems]; simpl;
    repeat constructor; auto.
Qed.

Lemma fmap_push_char_sound kwargs c (m : result (list item)) items :
  (forall items', m = inr items' -> Forall (item_sound kwargs) items') ->
  push_char c <$> m = inr items -> Forall (item_sound kwargs) items.
Proof.
  intros IH. destruct m as [e|items']; [discriminate|].
  intros [= <-]. apply push_char_sound. by apply IH.
Qed.

(** Both functions of the mutual recursion, by induction on a bound of the
    length of what is left to read (an escape consumes two characters). *)
Lemma markup_sound_bounded kwargs n :
  forall s, (String.length s <= n)%nat ->
    (forall items, markup kwargs s = inr items -> Forall (item_sound kwargs) items) /\
    (forall body items, markup_field kwargs s body = inr items ->
       Forall (item_sound kwargs) items).
Proof.
  induction n as [|n IH]; intros [|c rest] Hlen; simpl in Hlen; try lia.
  - split; [intros items [= <-]; constructor|discriminate].
  - split; [intros items [= <-]; constructor|discriminate].
  - destruct (IH rest ltac:(lia)) as [IHm IHf]. split.
    + intros items. cbn [markup].
      destruct (Ascii.eqb c "{").
      { destruct rest as [|c2 rest2]; [discriminate|].
        destruct (Ascii.eqb c2 "{").
        - apply fmap_push_char_sound. simpl in Hlen. apply (IH rest2). lia.
        - apply IHf. }
      destruct (Ascii.eqb c "}").
      { destruct rest as [|c2 rest2]; [discriminate|].
        destruct (Ascii.eqb c2 "}"); [|discriminate].
        apply fmap_push_char_sound. simpl in Hlen. apply (IH rest2). lia. }
      apply fmap_push_char_sound, IHm.
    + intros body items. cbn [markup_field].
      destruct (Ascii.eqb c "}").
      { destruct (render_field kwargs (string_rev body "")) as [e|i] eqn:Hr;
          [discriminate|].
        destruct (markup kwargs rest) as [e|items'] eqn:Hm; [discriminate|].
        intros [= <-]. constructor; [by eapply render_field_sound|by apply IHm]. }
      destruct (Ascii.eqb c "{"); [discriminate|]. apply IHf.
Qed.

Lemma markup_sound kwargs s items :
  markup kwargs s = inr items -> Forall (item_sound kwargs) items.
Proof. apply (markup_sound_bounded kwargs (String.length s) s). lia. Qed.

(** ** Formatting never raises on the table's templates *)

(** Case analysis on a template of the table: the goal is left with the
    template as a literal string. *)
Ltac known_template H :=
  let Hd := fresh "Hd" in
  pose proof (proj1 (CLUSTER_TEMPLATES_dom _) (mk_is_Some _ _ H)) as Hd;
  destruct Hd as [ -> | [ -> | [ -> | -> ] ] ]; vm_compute in H; injection H as <-.

(** Every template of the table formats, and each of its fields asks for
    the decimal places of [template_places]; the five values stay symbolic,
    the names and specs are computed. *)
Lemma template_check a t j r s cid tpl :
  CLUSTER_TEMPLATES !! cid = Some tpl ->
  exists items, markup (format_kwargs a t j r s) tpl = inr items /\
    forallb (spec_matches template_places) items = true.
Proof.
  intros H. known_template H.
  all: match goal with |- exists items, markup ?kw ?tpl = _ /\ _ =>
    assert (Hc : match markup kw tpl with
                 | inr items => forallb (spec_matches template_places) items
                 | inl _ => false
                 end = true) by (vm_compute; reflexivity);
    destruct (markup kw tpl) as [e|items]; [discriminate|eauto]
  end.
Qed.

Lemma format_known a t j r s cid tpl :
  CLUSTER_TEMPLATES !! cid = Some tpl ->
  exists text, format tpl (format_kwargs a t j r s) = inr text.
Proof.
  intros H. destruct (template_check a t j r s cid tpl H) as (items & Hi & _).
  unfold format. rewrite Hi. eexists. reflexivity.
Qed.

Lemma format_empty kwargs : format "" kwargs = inr "".
Proof. reflexivity. Qed.

(** Whatever the cluster id, the template the code picks formats. *)
Lemma format_total a t j r s cid :
  exists text,
    format (default "" (CLUSTER_TEMPLATES !! cid)) (format_kwargs a t j r s) = inr text.
Proof.
  destruct (CLUSTER_TEMPLATES !! cid) as [tpl|] eqn:H; cbn [default].
  - by eapply format_known.
  - eexists. apply format_empty.
Qed.

(** ** The two resolvers *)

(** Unfolds the plumbing of [Handler] and [result], and nothing else. *)
Ltac run_handler :=
  cbv [answer globals_after mbind handler_bind mret handler_ret result_bind
       result_ret read_globals throw lift raise index0].

(** The insight of a row, field by field. *)
Lemma generate_insight_for_row_run row :
  exists text,
    format (default "" (CLUSTER_TEMPLATES !! row_cluster_label row)) (row_kwargs row)
      = inr text /\
    generate_insight_for_row row =
      inr {| developer_id := row_developer_id row;
             developer_name := row_developer_name row;
             cluster_id := row_cluster_label row;
             cluster_label :=
               default (fallback_label (row_cluster_label row))
                 (default ∅ (CLUSTER_PROFILES !! row_cluster_label row) !! "label_id");
             concept_tag :=
               default ∅ (CLUSTER_PROFILES !! row_cluster_label row) !! "concept_tag";
             short_description :=
               default ""
                 (default ∅ (CLUSTER_PROFILES !! row_cluster_label row)
                    !! "short_description");
             insight_text := text |}.
Proof.
  destruct (format_total (row_total_active_days row) (row_avg_completion_time_hours row)
    (row_total_journeys_completed row) (row_rejection_ratio row)
    (row_avg_exam_score row) (row_cluster_label row)) as [text Ht].
  exists text. split; [exact Ht|].
  unfold generate_insight_for_row. rewrite Ht. reflexivity.
Qed.

Lemma generate_insight_for_row_total row :
  exists resp, generate_insight_for_row row = inr resp.
Proof.
  destruct (generate_insight_for_row_run row) as (text & _ & H). eauto.
Qed.

Lemma generate_insight_for_row_id row resp :
  generate_insight_for_row row = inr resp -> developer_id resp = row_developer_id row.
Proof.
  destruct (generate_insight_for_row_run row) as (text & _ & H).
  rewrite H. by intros [= <-].
Qed.

(** What [predict_cluster] answers once both artifacts are there and the
    model labels the sample. *)
Lemma predict_cluster_run g sc km payload c rest :
  scaler g = Some sc -> kmeans g = Some km ->
  predict km (transform sc (request_matrix payload)) = c :: rest ->
  exists text,
    format (default "" (CLUSTER_TEMPLATES !! c)) (request_kwargs payload) = inr text /\
    predict_cluster payload g =
      (g, inr {| p_developer_id := req_developer_id payload;
                 p_developer_name := Some (or_unknown (req_developer_name payload));
                 p_cluster_id := c;
                 p_cluster_label :=
                   default (fallback_label c)
                     (default ∅ (CLUSTER_PROFILES !! c) !! "label_id");
                 p_concept_tag := default ∅ (CLUSTER_PROFILES !! c) !! "concept_tag";
                 p_short_description :=
                   default "" (default ∅ (CLUSTER_PROFILES !! c) !! "short_description");
                 p_insight_text := text |}).
Proof.
  intros Hs Hk Hp.
  destruct (format_total (total_active_days payload) (avg_completion_time_hours payload)
    (total_journeys_completed payload) (rejection_ratio payload)
    (avg_exam_score payload) c) as [text Ht].
  exists text. split; [exact Ht|].
  unfold predict_cluster. run_handler. rewrite Hs, Hk.
  change (transform sc _) with (transform sc (request_matrix payload)).
  rewrite Hp. rewrite Ht. reflexivity.
Qed.

Lemma predict_cluster_unavailable g payload :
  scaler g = None \/ kmeans g = None ->
  predict_cluster payload g = (g, inl ModelUnavailable).
Proof.
  unfold predict_cluster. run_handler.
  intros [H|H]; rewrite H; [|destruct (scaler g)]; reflexivity.
Qed.

(** A model that labels no sample makes the indexing [[0]] fail. *)
Lemma predict_cluster_no_label g sc km payload :
  scaler g = Some sc -> kmeans g = Some km ->
  predict km (transform sc (request_matrix payload)) = [] ->
  predict_cluster payload g = (g, inl IndexError).
Proof.
  intros Hs Hk Hp. unfold predict_cluster. run_handler. rewrite Hs, Hk.
  change (transform sc _) with (transform sc (request_matrix payload)).
  rewrite Hp. reflexivity.
Qed.

(** The endpoint hands the globals back as it found them. *)
Lemma predict_cluster_globals g payload :
  globals_after (predict_cluster payload) g = g.
Proof.
  unfold globals_after.
  destruct (scaler g) as [sc|] eqn:Hs; [|by rewrite predict_cluster_unavailable by auto].
  destruct (kmeans g) as [km|] eqn:Hk; [|by rewrite predict_cluster_unavailable by auto].
  destruct (predict km (transform sc (request_matrix payload))) as [|c rest] eqn:Hp.
  - by erewrite predict_cluster_no_label.
  - destruct (predict_cluster_run g sc km payload c rest Hs Hk Hp) as (text & _ & ->).
    reflexivity.
Qed.

(** Unknown ids: what the lookups of the profile give. *)
Lemma unknown_profile_fields cid :
  CLUSTER_PROFILES !! cid = None ->
  default (fallback_label cid) (default ∅ (CLUSTER_PROFILES !! cid) !! "label_id")
    = "Cluster " +:+ pretty cid /\
  default ∅ (CLUSTER_PROFILES !! cid) !! "concept_tag" = None /\
  default "" (default ∅ (CLUSTER_PROFILES !! cid) !! "short_description") = "".
Proof. intros ->. cbn [default]. rewrite !lookup_empty. done. Qed.

(** * The claims *)

(** ** C1: fallback profile *)

(** C1. For every cluster id that is not a key of [CLUSTER_PROFILES], the
    insight of a row with that cluster label (lookup path) and the
    prediction whose model returns that id (predict path, any payload) both
    succeed, with [cluster_label] the text ["Cluster "] followed by the
    decimal id, an empty [short_description] and no [concept_tag]. *)
Theorem profile_fallback (cid : Z) :
  CLUSTER_PROFILES !! cid = None ->
  (forall row, row_cluster_label row = cid ->
     exists resp, generate_insight_for_row row = inr resp /\
       cluster_label resp = "Cluster " +:+ pretty cid /\
       short_description resp = "" /\ concept_tag resp = None) /\
  (forall g sc km payload rest,
     scaler g = Some sc -> kmeans g = Some km ->
     predict km (transform sc (request_matrix payload)) = cid :: rest ->
     exists resp, answer (predict_cluster payload) g = inr resp /\
       p_cluster_label resp = "Cluster " +:+ pretty cid /\
       p_short_description resp = "" /\ p_concept_tag resp = None).
Proof.
  intros Hcid. destruct (unknown_profile_fields cid Hcid) as (Hl & Ht & Hd). split.
  - intros row <-.
    destruct (generate_insight_for_row_run row) as (text & _ & ->).
    eexists; split; [reflexivity|]. cbn [cluster_label short_description concept_tag].
    auto.
  - intros g sc km payload rest Hs Hk Hp.
    destruct (predict_cluster_run g sc km payload cid rest Hs Hk Hp) as (text & _ & H).
    unfold answer. rewrite H. eexists; split; [reflexivity|].
    cbn [p_cluster_label p_short_description p_concept_tag]. auto.
Qed.

Lemma profile_fallback_witness :
  (exists resp, generate_insight_for_row (sample_row 14 "Dewi" 7) = inr resp /\
     cluster_label resp = "Cluster " +:+ pretty 7 /\
     short_description resp = "" /\ concept_tag resp = None) /\
  (exists resp,
     answer (predict_cluster (sample_features None)) (sample_globals 7) = inr resp /\
     p_cluster_label resp = "Cluster " +:+ pretty 7 /\
     p_short_description resp = "" /\ p_concept_tag resp = None).
Proof.
  assert (H7 : CLUSTER_PROFILES !! 7 = None) by (vm_compute; reflexivity).
  destruct (profile_fallback 7 H7) as [Hrow Hpred]. split.
  - apply Hrow. reflexivity.
  - apply (Hpred (sample_globals 7) stub_scaler (stub_kmeans 7) (sample_features None) []);
      reflexivity.
Defined.

(** ** C6: fallback template *)

(** C6. For every cluster id that is not a key of [CLUSTER_TEMPLATES], both
    resolvers succeed and [insight_text] is the empty string, whatever the
    five feature values. *)
Theorem template_fallback (cid : Z) :
  CLUSTER_TEMPLATES !! cid = None ->
  (forall row, row_cluster_label row = cid ->
     exists resp, generate_insight_for_row row = inr resp /\ insight_text resp = "") /\
  (forall g sc km payload rest,
     scaler g = Some sc -> kmeans g = Some km ->
     predict km (transform sc (request_matrix payload)) = cid :: rest ->
     exists resp, answer (predict_cluster payload) g = inr resp /\
       p_insight_text resp = "").
Proof.
  intros Hcid. split.
  - intros row <-.
    destruct (generate_insight_for_row_run row) as (text & Ht & ->).
    rewrite Hcid in Ht. cbn [default] in Ht. rewrite format_empty in Ht.
    injection Ht as <-. eexists; split; reflexivity.
  - intros g sc km payload rest Hs Hk Hp.
    destruct (predict_cluster_run g sc km payload cid rest Hs Hk Hp) as (text & Ht & H).
    rewrite Hcid in Ht. cbn [default] in Ht. rewrite format_empty in Ht.
    injection Ht as <-. unfold answer. rewrite H. eexists; split; reflexivity.
Qed.

Lemma template_fallback_witness :
  (exists resp, generate_insight_for_row (sample_row 14 "Dewi" 7) = inr resp /\
     insight_text resp = "") /\
  (exists resp,
     answer (predict_cluster (sample_features None)) (sample_globals (-1)) = inr resp /\
     p_insight_text resp = "").
Proof.
  assert (H7 : CLUSTER_TEMPLATES !! 7 = None) by (vm_compute; reflexivity).
  assert (H1 : CLUSTER_TEMPLATES !! (-1) = None) by (vm_compute; reflexivity).
  split.
  - apply (proj1 (template_fallback 7 H7)). reflexivity.
  - apply (proj2 (template_fallback (-1) H1) (sample_globals (-1)) stub_scaler
             (stub_kmeans (-1)) (sample_features None) []); reflexivity.
Defined.

(** ** C2: model availability *)

Lemma health_check_run g :
  health_check g =
    (g, inr {| status := "ok";
               model_loaded := bool_decide (kmeans g ≠ None) && bool_decide (scaler g ≠ None);
               data_loaded := bool_decide (df_clustered g ≠ None) |}).
Proof. reflexivity. Qed.

Lemma model_loaded_false g h :
  answer health_check g = inr h ->
  model_loaded h = false <-> scaler g = None \/ kmeans g = None.
Proof.
  unfold answer. rewrite health_check_run. intros [= <-]. cbn [model_loaded].
  rewrite andb_false_iff, !bool_decide_eq_false.
  destruct (scaler g), (kmeans g); intuition congruence.
Qed.

Lemma load_artifacts_failed d e : load_try d = inl e -> load_artifacts d = no_globals.
Proof. unfold load_artifacts. by intros ->. Qed.

(** C2. [predict_cluster] raises the model-unavailable exception exactly
    when the scaler or the clustering model is [None]; in that case it is
    raised for every payload and whatever the other artifact is, so nothing
    is computed with the model first; [health_check] reports
    [model_loaded = false] in exactly the same states; and after a failed
    [try] block every prediction raises it. *)
Theorem model_unavailable_iff :
  (forall g payload,
     answer (predict_cluster payload) g = inl ModelUnavailable
     <-> scaler g = None \/ kmeans g = None) /\
  (forall g, exists h, answer health_check g = inr h /\
     (model_loaded h = false <-> scaler g = None \/ kmeans g = None)) /\
  (forall d e, load_try d = inl e ->
     (exists h, answer health_check (load_artifacts d) = inr h /\ model_loaded h = false) /\
     forall payload,
       answer (predict_cluster payload) (load_artifacts d) = inl ModelUnavailable).
Proof.
  split; [|split].
  - intros g payload. split.
    + intros H. destruct (scaler g) as [sc|] eqn:Hs; [|auto].
      destruct (kmeans g) as [km|] eqn:Hk; [|auto]. exfalso.
      unfold answer in H.
      destruct (predict km (transform sc (request_matrix payload))) as [|c rest] eqn:Hp.
      * rewrite (predict_cluster_no_label g sc km payload Hs Hk Hp) in H. discriminate.
      * destruct (predict_cluster_run g sc km payload c rest Hs Hk Hp) as (text & _ & Hr).
        rewrite Hr in H. discriminate.
    + intros H. unfold answer. by rewrite predict_cluster_unavailable.
  - intros g. eexists. split; [unfold answer; rewrite health_check_run; reflexivity|].
    apply model_loaded_false. unfold answer. by rewrite health_check_run.
  - intros d e He. rewrite (load_artifacts_failed d e He). split.
    + eexists. split; reflexivity.
    + intros payload. unfold answer. rewrite predict_cluster_unavailable; auto.
Qed.

Lemma model_unavailable_iff_witness :
  answer (predict_cluster (sample_features None))
    {| scaler := None; kmeans := Some (stub_kmeans 0); df_clustered := Some sample_df |}
    = inl ModelUnavailable /\
  answer (predict_cluster (sample_features None)) (load_artifacts disk_without_csv)
    = inl ModelUnavailable.
Proof.
  destruct model_unavailable_iff as (Hiff & _ & Hload). split.
  - apply Hiff. left. reflexivity.
  - apply (Hload disk_without_csv (OSError "clustered_students.csv")). reflexivity.
Defined.

(** ** C10: identity fields on the predict path *)

(** C10. On a successful prediction, [developer_id] is the one of the
    request, absent included; [developer_name] is ["Unknown"] when the
    request has none and also when it has the empty string, and is the
    requested name unchanged when that is not empty. *)
Theorem predict_identity_fields g sc km payload c rest :
  scaler g = Some sc -> kmeans g = Some km ->
  predict km (transform sc (request_matrix payload)) = c :: rest ->
  exists resp, answer (predict_cluster payload) g = inr resp /\
    p_developer_id resp = req_developer_id payload /\
    (req_developer_name payload = None -> p_developer_name resp = Some "Unknown") /\
    (req_developer_name payload = Some "" -> p_developer_name resp = Some "Unknown") /\
    (forall name, name <> "" -> req_developer_name payload = Some name ->
       p_developer_name resp = Some name).
Proof.
  intros Hs Hk Hp.
  destruct (predict_cluster_run g sc km payload c rest Hs Hk Hp) as (text & _ & H).
  unfold answer. rewrite H. eexists; split; [reflexivity|].
  cbn [p_developer_id p_developer_name]. repeat split.
  - by intros ->.
  - by intros ->.
  - intros name Hne ->. destruct name; [done|reflexivity].
Qed.

Lemma predict_identity_fields_witness :
  (exists resp,
     answer (predict_cluster (sample_features (Some ""))) (sample_globals 0) = inr resp /\
     p_developer_id resp = None /\ p_developer_name resp = Some "Unknown") /\
  (exists resp,
     answer (predict_cluster (sample_features (Some "Ani"))) (sample_globals 0) = inr resp /\
     p_developer_id resp = None /\ p_developer_name resp = Some "Ani").
Proof.
  split.
  - destruct (predict_identity_fields (sample_globals 0) stub_scaler (stub_kmeans 0)
                (sample_features (Some "")) 0 [] eq_refl eq_refl eq_refl)
      as (resp & Hr & Hid & _ & Hempty & _).
    exists resp. split; [exact Hr|]. split; [exact Hid|]. apply Hempty. reflexivity.
  - destruct (predict_identity_fields (sample_globals 0) stub_scaler (stub_kmeans 0)
                (sample_features (Some "Ani")) 0 [] eq_refl eq_refl eq_refl)
      as (resp & Hr & Hid & _ & _ & Hname).
    exists resp. split; [exact Hr|]. split; [exact Hid|].
    apply Hname; [discriminate|reflexivity].
Defined.

(** ** C7: determinism *)

Lemma same_features_matrix p1 p2 :
  same_features p1 p2 -> request_matrix p1 = request_matrix p2.
Proof. intros (H1 & H2 & H3 & H4 & H5). unfold request_matrix. congruence. Qed.

Lemma same_features_kwargs p1 p2 :
  same_features p1 p2 -> request_kwargs p1 = request_kwargs p2.
Proof. intros (H1 & H2 & H3 & H4 & H5). unfold request_kwargs. congruence. Qed.

(** C7. With the globals fixed, two payloads with the same five feature
    values get the same cluster id, label, description and insight text (or
    the same exception), whatever their identity fields; and the endpoint
    hands back the globals unchanged. *)
Theorem predict_cluster_deterministic g p1 p2 :
  same_features p1 p2 ->
  prediction_core <$> answer (predict_cluster p1) g
    = prediction_core <$> answer (predict_cluster p2) g /\
  globals_after (predict_cluster p1) g = g /\
  globals_after (predict_cluster p2) g = g.
Proof.
  intros Hsame. split; [|split; apply predict_cluster_globals].
  unfold answer.
  destruct (scaler g) as [sc|] eqn:Hs;
    [|by rewrite !predict_cluster_unavailable by auto].
  destruct (kmeans g) as [km|] eqn:Hk;
    [|by rewrite !predict_cluster_unavailable by auto].
  destruct (predict km (transform sc (request_matrix p1))) as [|c rest] eqn:Hp1.
  - assert (Hp2 := Hp1). rewrite (same_features_matrix p1 p2 Hsame) in Hp2.
    by rewrite (predict_cluster_no_label g sc km p1 Hs Hk Hp1),
               (predict_cluster_no_label g sc km p2 Hs Hk Hp2).
  - assert (Hp2 := Hp1). rewrite (same_features_matrix p1 p2 Hsame) in Hp2.
    destruct (predict_cluster_run g sc km p1 c rest Hs Hk Hp1) as (t1 & Ht1 & ->).
    destruct (predict_cluster_run g sc km p2 c rest Hs Hk Hp2) as (t2 & Ht2 & ->).
    rewrite (same_features_kwargs p1 p2 Hsame), Ht2 in Ht1. injection Ht1 as ->.
    reflexivity.
Qed.

Lemma predict_cluster_deterministic_witness :
  prediction_core <$> answer (predict_cluster (sample_features None)) (sample_globals 1)
    = prediction_core <$>
        answer (predict_cluster (sample_features (Some "Ani"))) (sample_globals 1) /\
  globals_after (predict_cluster (sample_features None)) (sample_globals 1)
    = sample_globals 1.
Proof.
  destruct (predict_cluster_deterministic (sample_globals 1) (sample_features None)
              (sample_features (Some "Ani")))
    as (Hcore & Hg & _).
  - repeat split.
  - split; assumption.
Defined.

(** ** C4: lookup by developer id *)

Lemma get_insight_by_developer_id_run g df id :
  df_clustered g = Some df ->
  answer (get_insight_by_developer_id id) g =
    match filter (fun r => row_developer_id r = id) df with
    | [] => inl NotFound
    | row0 :: _ => generate_insight_for_row row0
    end.
Proof.
  intros Hdf. unfold get_insight_by_developer_id. run_handler. rewrite Hdf.
  by destruct (filter _ df).
Qed.

(** C4. With the dataset loaded, the lookup of an id that some row carries
    answers an insight whose [developer_id] is that id, and the lookup of an
    id that no row carries raises the not-found exception. *)
Theorem get_insight_by_developer_id_spec g df id :
  df_clustered g = Some df ->
  ((exists row, row ∈ df /\ row_developer_id row = id) ->
     exists resp, answer (get_insight_by_developer_id id) g = inr resp /\
       developer_id resp = id) /\
  ((forall row, row ∈ df -> row_developer_id row <> id) ->
     answer (get_insight_by_developer_id id) g = inl NotFound).
Proof.
  intros Hdf. rewrite (get_insight_by_developer_id_run g df id Hdf). split.
  - intros (row & Hin & Hid).
    destruct (filter (fun r => row_developer_id r = id) df) as [|row0 rows] eqn:Hf.
    + assert (Hrow : row ∈ filter (fun r => row_developer_id r = id) df)
        by (apply list_elem_of_filter; auto).
      rewrite Hf in Hrow. inversion Hrow.
    + assert (Hrow0 : row0 ∈ filter (fun r => row_developer_id r = id) df)
        by (rewrite Hf; apply list_elem_of_here).
      apply list_elem_of_filter in Hrow0 as [Hid0 _].
      destruct (generate_insight_for_row_total row0) as [resp Hresp].
      exists resp. split; [exact Hresp|].
      rewrite (generate_insight_for_row_id row0 resp Hresp). exact Hid0.
  - intros Hnone.
    destruct (filter (fun r => row_developer_id r = id) df) as [|row0 rows] eqn:Hf;
      [reflexivity|].
    assert (Hrow0 : row0 ∈ filter (fun r => row_developer_id r = id) df)
      by (rewrite Hf; apply list_elem_of_here).
    apply list_elem_of_filter in Hrow0 as [Hid0 Hin]. by destruct (Hnone row0 Hin).
Qed.

Lemma get_insight_by_developer_id_witness :
  (exists resp, answer (get_insight_by_developer_id 13) (sample_globals 0) = inr resp /\
     developer_id resp = 13) /\
  answer (get_insight_by_developer_id 99) (sample_globals 0) = inl NotFound.
Proof.
  destruct (get_insight_by_developer_id_spec (sample_globals 0) sample_df 13 eq_refl)
    as [Hfound _].
  destruct (get_insight_by_developer_id_spec (sample_globals 0) sample_df 99 eq_refl)
    as [_ Hmissing].
  split.
  - apply Hfound. exists (sample_row 13 "Citra" 3). split; [|reflexivity].
    unfold sample_df. do 2 apply list_elem_of_further. apply list_elem_of_here.
  - apply Hmissing. intros row Hin. unfold sample_df in Hin.
    repeat (apply elem_of_cons in Hin as [->|Hin]; [discriminate|]).
    inversion Hin.
Defined.

(** ** C5: listing *)

Lemma mapM_generate rows :
  exists insights,
    mapM generate_insight_for_row rows = inr insights /\
    Forall2 (fun row ins => generate_insight_for_row row = inr ins) rows insights.
Proof.
  induction rows as [|row rows (insights & Hm & Hall)].
  - exists []. split; [reflexivity|constructor].
  - destruct (generate_insight_for_row_total row) as [ins Hins].
    exists (ins :: insights). split; [|by constructor].
    cbn [mapM]. rewrite Hins, Hm. reflexivity.
Qed.

Lemma list_insights_run g df limit :
  df_clustered g = Some df ->
  answer (list_insights limit) g = mapM generate_insight_for_row (head_rows limit df).
Proof. intros Hdf. unfold list_insights. run_handler. by rewrite Hdf. Qed.

Lemma validate_limit_in_range limit :
  1 <= limit <= 100 -> validate "limit" limit_query (Some limit) = inr limit.
Proof.
  intros [Hge Hle]. unfold validate, limit_query. cbn [q_ge q_le].
  by rewrite !bool_decide_eq_true_2.
Qed.

Lemma validate_limit_out_of_range limit :
  ~ (1 <= limit <= 100) ->
  validate "limit" limit_query (Some limit) = inl (RequestValidationError "limit").
Proof.
  intros Hout. unfold validate, limit_query. cbn [q_ge q_le].
  destruct (decide (1 <= limit)) as [Hge|Hlt].
  - rewrite (bool_decide_eq_true_2 _ Hge), bool_decide_eq_false_2 by lia. reflexivity.
  - rewrite (bool_decide_eq_false_2 _ Hlt). reflexivity.
Qed.

(** C5. With a dataset of [n] rows loaded, a limit between 1 and 100 gets
    exactly [min limit n] insights, which are the insights of the first rows
    of the dataset in their stored order; a limit outside 1..100 is rejected
    by the validation of the query parameter (in every state); and a request
    without limit is served as limit 10. *)
Theorem list_insights_spec g df :
  df_clustered g = Some df ->
  (forall limit, 1 <= limit <= 100 ->
     exists insights,
       answer (list_insights_route (Some limit)) g = inr insights /\
       length insights = Nat.min (Z.to_nat limit) (length df) /\
       Forall2 (fun row ins => generate_insight_for_row row = inr ins)
         (take (Z.to_nat limit) df) insights /\
       developer_id <$> insights = row_developer_id <$> take (Z.to_nat limit) df) /\
  (forall g' limit, ~ (1 <= limit <= 100) ->
     answer (list_insights_route (Some limit)) g'
       = inl (RequestValidationError "limit")) /\
  list_insights_route None = list_insights 10.
Proof.
  intros Hdf. split; [|split].
  - intros limit Hrange.
    destruct (mapM_generate (take (Z.to_nat limit) df)) as (insights & Hm & Hall).
    exists insights. split; [|split; [|split]].
    + unfold list_insights_route. run_handler.
      rewrite (validate_limit_in_range limit Hrange).
      change (snd (list_insights limit g) = inr insights).
      fold (answer (list_insights limit) g). rewrite (list_insights_run g df limit Hdf).
      unfold head_rows. rewrite bool_decide_eq_true_2 by lia. exact Hm.
    + rewrite <- (Forall2_length _ _ _ Hall). apply length_take.
    + exact Hall.
    + clear Hm. induction Hall as [|row ins rows insights Hrow _ IH]; [reflexivity|].
      cbn [fmap list_fmap]. rewrite IH.
      by rewrite (generate_insight_for_row_id row ins Hrow).
  - intros g' limit Hout. unfold list_insights_route. run_handler.
    rewrite (validate_limit_out_of_range limit Hout). reflexivity.
  - reflexivity.
Qed.

Lemma list_insights_witness :
  (exists insights,
     answer (list_insights_route (Some 3)) (sample_globals 0) = inr insights /\
     length insights = 3%nat /\
     developer_id <$> insights = [11; 12; 13]) /\
  answer (list_insights_route (Some 150)) (sample_globals 0)
    = inl (RequestValidationError "limit").
Proof.
  destruct (list_insights_spec (sample_globals 0) sample_df eq_refl) as (Hin & Hout & _).
  split.
  - destruct (Hin 3 ltac:(lia)) as (insights & Hr & Hlen & _ & Hids).
    exists insights. split; [exact Hr|]. split; [exact Hlen|exact Hids].
  - apply Hout. lia.
Defined.

(** ** C8: formatting does not raise *)

(** C8. For any five floats, finite of any magnitude or not, formatting the
    template of a known cluster id returns a string, so the insight of every
    row is produced; NaN and the infinities are rendered as the texts
    [nan], [inf] and [-inf] at every precision. *)
Theorem format_never_raises cid tpl a t j r s :
  CLUSTER_TEMPLATES !! cid = Some tpl ->
  (exists text, format tpl (format_kwargs a t j r s) = inr text) /\
  (forall row, exists resp, generate_insight_for_row row = inr resp) /\
  (forall p, format_f p S754_nan = "nan" /\
             format_f p (S754_infinity false) = "inf" /\
             format_f p (S754_infinity true) = "-inf").
Proof.
  intros H. split; [by eapply format_known|].
  split; [apply generate_insight_for_row_total|].
  intros p. repeat split.
Qed.

Lemma format_never_raises_witness :
  exists text,
    format (default "" (CLUSTER_TEMPLATES !! 2))
      (format_kwargs S754_nan (S754_infinity true) (S754_finite false 1 1023) f_0_05 f_88)
    = inr text.
Proof.
  assert (H2 : CLUSTER_TEMPLATES !! 2 = Some (default "" (CLUSTER_TEMPLATES !! 2)))
    by (vm_compute; reflexivity).
  exact (proj1 (format_never_raises 2 _ S754_nan (S754_infinity true)
                  (S754_finite false 1 1023) f_0_05 f_88 H2)).
Defined.

(** ** C9: the artifacts are cleared together *)






(** ** C3: decimal places of the slots *)

Lemma format_kwargs_finite a t j r s name x :
  is_finite a = true -> is_finite t = true -> is_finite j = true ->
  is_finite r = true -> is_finite s = true ->
  format_kwargs a t j r s !! name = Some x -> is_finite x = true.
Proof.
  intros Ha Ht Hj Hr Hs. unfold format_kwargs.
  rewrite !lookup_insert_Some, lookup_singleton_Some.
  intuition congruence.
Qed.

Lemma forallb_Forall {A} (f : A -> bool) l :
  forallb f l = true -> Forall (fun x => f x = true) l.
Proof.
  induction l as [|x l IH]; cbn [forallb]; [constructor|].
  intros [Hx Hl]%andb_prop. constructor; auto.
Qed.

(** A sound field whose spec asks for [places name] decimal places shows
    the finite value of its slot with that many places. *)
Lemma item_rendered_intro places kwargs i :
  (forall name x, kwargs !! name = Some x -> is_finite x = true) ->
  item_sound kwargs i -> spec_matches places i = true ->
  item_rendered places kwargs i.
Proof.
  intros Hfin. destruct i as [text|name spec text]; [done|].
  cbn [item_sound spec_matches item_rendered].
  intros (x & p & Hx & Hp & ->) Hm%bool_decide_eq_true_1.
  rewrite Hp in Hm. injection Hm as ->.
  exists x. split; [exact Hx|]. split; [reflexivity|].
  apply decimal_places_format_f. by eapply Hfin.
Qed.

(** C3, as the code has it. For five finite floats and every known cluster
    id, the template formats and, in every template where the slot occurs,
    [active_days], [journeys] and [score] are rendered with zero decimal
    places, [rejection_ratio] with two, and [avg_time_hours] with one. *)
Theorem slots_rendered_with_template_places cid a t j r s :
  is_Some (CLUSTER_TEMPLATES !! cid) ->
  is_finite a = true -> is_finite t = true -> is_finite j = true ->
  is_finite r = true -> is_finite s = true ->
  insight_renders_with template_places cid a t j r s.
Proof.
  intros [tpl Htpl] Ha Ht Hj Hr Hs.
  destruct (template_check a t j r s cid tpl Htpl) as (items & Hm & Hc).
  exists tpl, items. split; [exact Htpl|]. split; [exact Hm|]. split.
  - unfold format. rewrite Hm. reflexivity.
  - pose proof (markup_sound _ _ _ Hm) as Hsound.
    pose proof (forallb_Forall _ _ Hc) as Hspec.
    assert (Hboth : Forall (fun i => item_sound (format_kwargs a t j r s) i
                                     /\ spec_matches template_places i = true) items)
      by (apply Forall_and; auto).
    eapply Forall_impl; [exact Hboth|]. intros i [Hi Hci].
    apply item_rendered_intro; [|exact Hi|exact Hci].
    intros name x. by apply format_kwargs_finite.
Qed.

Lemma slots_rendered_with_template_places_witness :
  insight_renders_with template_places 0 f_2 f_1_5 f_3 f_0_05 f_88.
Proof.
  apply slots_rendered_with_template_places; try reflexivity.
  apply CLUSTER_TEMPLATES_dom. left. reflexivity.
Defined.

(** C3, as it is worded (two decimal places for [avg_time_hours]), fails on
    cluster 0 with an average completion time of 1.5 hours: the template
    spells [{avg_time_hours:.1f}] and the insight reads [1.5], one decimal
    place. *)
Lemma stated_places_counterexample :
  ~ insight_renders_with stated_places 0 f_2 f_1_5 f_3 f_0_05 f_88.
Proof.
  intros (tpl & items & Htpl & Hm & _ & Hall).
  vm_compute in Htpl. injection Htpl as <-.
  vm_compute in Hm. injection Hm as <-.
  rewrite Forall_lookup in Hall.
  destruct (Hall 3%nat _ eq_refl) as (x & _ & _ & Hplaces).
  vm_compute in Hplaces. discriminate.
Qed.

(** ** More worked examples *)

Example fallback_label_ex1 : fallback_label 7 = "Cluster 7".
Proof. vm_compute. reflexivity. Qed.

Example fallback_label_ex2 : fallback_label (-12) = "Cluster -12".
Proof. vm_compute. reflexivity. Qed.

Example template_places_ex :
  template_places <$> ["active_days"; "avg_time_hours"; "journeys"; "rejection_ratio"; "score"]
  = [0; 1; 0; 2; 0]%nat.
Proof. vm_compute. reflexivity. Qed.

Example format_nonfinite_ex :
  format (default "" (CLUSTER_TEMPLATES !! 3))
    (format_kwargs S754_nan f_2 (S754_infinity false) (S754_infinity true) f_88)
  = inr "Kamu cukup aktif belajar (sekitar nan hari aktif) dan telah menyelesaikan sekitar inf journey. Rata-rata nilai ujianmu saat ini sekitar 88, dengan rasio submission ditolak sekitar -inf. Ini menunjukkan kamu banyak bereksperimen, tetapi masih perlu memperkuat pemahaman konsep dasar. Manfaatkan kembali materi, contoh solusi, dan umpan balik dari submission untuk meningkatkan hasil ujian.".
Proof. vm_compute. reflexivity. Qed.

Example load_good_disk_ex :
  answer health_check (load_artifacts good_disk)
  = inr {| status := "ok"; model_loaded := true; data_loaded := true |}.
Proof. vm_compute. reflexivity. Qed.

Example load_scaler_none_ex :
  answer health_check (load_artifacts disk_scaler_none)
  = inr {| status := "ok"; model_loaded := false; data_loaded := true |}.
Proof. vm_compute. reflexivity. Qed.

Example load_scaler_none_predict_ex :
  answer (predict_cluster (sample_features None)) (load_artifacts disk_scaler_none)
  = inl ModelUnavailable.
Proof. vm_compute. reflexivity. Qed.

Example load_missing_column_ex :
  load_try disk_without_column
  = inl (ValueError "Kolom berikut tidak ditemukan di clustered_students.csv: ['total_active_days', 'avg_completion_time_hours', 'total_journeys_completed', 'rejection_ratio', 'avg_exam_score']").
Proof. vm_compute. reflexivity. Qed.

Example head_rows_ex : head_rows (-1) [1; 2; 3] = [1; 2] /\ head_rows 5 [1; 2; 3] = [1; 2; 3].
Proof. split; reflexivity. Qed.

(** * Further properties of the endpoints *)

(** ** The cluster listing *)

(** The key list is the whole dict: nothing of the table is dropped. *)
Lemma CLUSTER_PROFILES_items_complete :
  list_to_map (dict_items CLUSTER_PROFILES_keys CLUSTER_PROFILES) = CLUSTER_PROFILES.
Proof. vm_compute. reflexivity. Qed.

(** X1. In every state of the globals, loaded or not, [list_clusters]
    answers without raising and leaves the globals alone; it lists the
    clusters 0, 1, 2, 3 in that order, which are exactly the keys of the
    profile table; and each listed profile carries the label, concept tag
    and description that the insight of a row of that cluster shows. *)
Theorem list_clusters_spec g :
  exists profiles,
    list_clusters g = (g, inr profiles) /\
    cp_cluster_id <$> profiles = [0; 1; 2; 3] /\
    (forall cid, cid ∈ (cp_cluster_id <$> profiles) <-> is_Some (CLUSTER_PROFILES !! cid)) /\
    (forall prof row resp,
       prof ∈ profiles -> row_cluster_label row = cp_cluster_id prof ->
       generate_insight_for_row row = inr resp ->
       cluster_label resp = cp_label_id prof /\
       concept_tag resp = cp_concept_tag prof /\
       short_description resp = cp_short_description prof).
Proof.
  unfold list_clusters, lift.
  match goal with |- context [mapM ?f ?l] =>
    destruct (mapM f l) as [e|profiles] eqn:E
  end; vm_compute in E; [discriminate|]. injection E as <-.
  eexists. split; [reflexivity|]. split; [reflexivity|]. split.
  - intros cid. rewrite CLUSTER_PROFILES_dom. cbn [fmap list_fmap cp_cluster_id].
    rewrite !elem_of_cons, elem_of_nil. tauto.
  - intros prof row resp Hin Hcid Hresp.
    destruct (generate_insight_for_row_run row) as (text & _ & Hrun).
    rewrite Hrun in Hresp. injection Hresp as <-.
    cbn [cluster_label concept_tag short_description]. rewrite Hcid.
    repeat (apply elem_of_cons in Hin as [->|Hin];
            [cbn [cp_cluster_id cp_label_id cp_concept_tag cp_short_description];
             repeat split; vm_compute; reflexivity|]).
    inversion Hin.
Qed.

Lemma list_clusters_witness :
  exists profiles,
    answer list_clusters no_globals = inr profiles /\
    cp_cluster_id <$> profiles = [0; 1; 2; 3] /\
    (exists prof, prof ∈ profiles /\ cp_label_id prof = "Consistent Learner").
Proof.
  destruct (list_clusters_spec no_globals) as (profiles & Hrun & Hids & _ & Hagree).
  exists profiles. unfold answer. rewrite Hrun. split; [reflexivity|].
  split; [exact Hids|].
  destruct profiles as [|p0 [|p1 rest]]; try discriminate.
  exists p1. split; [apply list_elem_of_further, list_elem_of_here|].
  destruct (generate_insight_for_row_total (sample_row 12 "Budi" 1)) as [resp Hresp].
  injection Hids as _ H1 _.
  destruct (Hagree p1 (sample_row 12 "Budi" 1) resp) as (Hl & _ & _);
    [apply list_elem_of_further, list_elem_of_here|by rewrite H1|exact Hresp|].
  rewrite <- Hl. vm_compute in Hresp. injection Hresp as <-. reflexivity.
Defined.

Example list_clusters_ex :
  fmap (M:=result) (fmap cp_label_id) (answer list_clusters no_globals)
  = inr ["Fast Learner"; "Consistent Learner"; "Reflective Learner"; "Struggling Learner"].
Proof. vm_compute. reflexivity. Qed.

(** ** The two paths meet *)

(** X2. When the model assigns to a payload the cluster a stored row has,
    and the payload carries the row's five feature values, the prediction
    and the insight of the row agree on the cluster id, the label, the
    concept tag, the description and the insight text. *)
Theorem predict_agrees_with_lookup g sc km payload row rest :
  scaler g = Some sc -> kmeans g = Some km ->
  predict km (transform sc (request_matrix payload)) = row_cluster_label row :: rest ->
  features_of_row payload row ->
  exists resp presp,
    generate_insight_for_row row = inr resp /\
    answer (predict_cluster payload) g = inr presp /\
    p_cluster_id presp = cluster_id resp /\
    p_cluster_label presp = cluster_label resp /\
    p_concept_tag presp = concept_tag resp /\
    p_short_description presp = short_description resp /\
    p_insight_text presp = insight_text resp.
Proof.
  intros Hs Hk Hp (H1 & H2 & H3 & H4 & H5).
  destruct (generate_insight_for_row_run row) as (text & Ht & Hrow).
  destruct (predict_cluster_run g sc km payload _ rest Hs Hk Hp) as (ptext & Hpt & Hrun).
  unfold request_kwargs in Hpt. rewrite H1, H2, H3, H4, H5 in Hpt.
  fold (row_kwargs row) in Hpt. rewrite Ht in Hpt. injection Hpt as <-.
  do 2 eexists. split; [exact Hrow|]. unfold answer. rewrite Hrun.
  split; [reflexivity|]. repeat split.
Qed.

Lemma predict_agrees_with_lookup_witness :
  exists resp presp,
    generate_insight_for_row (sample_row 13 "Citra" 3) = inr resp /\
    answer (predict_cluster (sample_features None)) (sample_globals 3) = inr presp /\
    p_insight_text presp = insight_text resp.
Proof.
  destruct (predict_agrees_with_lookup (sample_globals 3) stub_scaler (stub_kmeans 3)
              (sample_features None) (sample_row 13 "Citra" 3) [] eq_refl eq_refl eq_refl)
    as (resp & presp & Hr & Hp & _ & _ & _ & _ & Ht).
  - repeat split.
  - exists resp, presp. auto.
Defined.

(** X3. A successful prediction always names a developer: [developer_name]
    is present and is not the empty string. *)
Theorem predict_names_a_developer g payload resp :
  answer (predict_cluster payload) g = inr resp ->
  exists name, p_developer_name resp = Some name /\ name <> "".
Proof.
  unfold answer. intros H.
  destruct (scaler g) as [sc|] eqn:Hs;
    [|by rewrite predict_cluster_unavailable in H by auto].
  destruct (kmeans g) as [km|] eqn:Hk;
    [|by rewrite predict_cluster_unavailable in H by auto].
  destruct (predict km (transform sc (request_matrix payload))) as [|c rest] eqn:Hp.
  - by rewrite (predict_cluster_no_label g sc km payload Hs Hk Hp) in H.
  - destruct (predict_cluster_run g sc km payload c rest Hs Hk Hp) as (text & _ & Hrun).
    rewrite Hrun in H. injection H as <-. cbn [p_developer_name].
    eexists. split; [reflexivity|].
    by destruct (req_developer_name payload) as [[|ch name]|].
Qed.

Lemma predict_names_a_developer_witness :
  exists resp name,
    answer (predict_cluster (sample_features (Some ""))) (sample_globals 2) = inr resp /\
    p_developer_name resp = Some name /\ name <> "".
Proof.
  destruct (predict_cluster_run (sample_globals 2) stub_scaler (stub_kmeans 2)
              (sample_features (Some "")) 2 [] eq_refl eq_refl eq_refl)
    as (text & _ & Hrun).
  eexists.
  destruct (predict_names_a_developer (sample_globals 2) (sample_features (Some "")) _
              (f_equal snd Hrun)) as (name & Hname & Hne).
  exists name. split; [exact (f_equal snd Hrun)|]. split; assumption.
Defined.

(** ** Dataset availability *)

(** X4. The dataset endpoints raise the dataset-unavailable exception
    exactly when [df_clustered] is [None], which is exactly when
    [health_check] reports [data_loaded = false]; so a not-found answer is
    only ever given from a loaded dataset. *)
Theorem dataset_unavailable_iff g :
  (forall id,
     answer (get_insight_by_developer_id id) g = inl DatasetUnavailable
     <-> df_clustered g = None) /\
  (forall limit,
     answer (list_insights limit) g = inl DatasetUnavailable <-> df_clustered g = None) /\
  (exists h, answer health_check g = inr h /\
     (data_loaded h = false <-> df_clustered g = None)) /\
  (forall id, answer (get_insight_by_developer_id id) g = inl NotFound ->
     df_clustered g <> None).
Proof.
  assert (Hget : forall id,
     answer (get_insight_by_developer_id id) g = inl DatasetUnavailable
     <-> df_clustered g = None).
  { intros id. destruct (df_clustered g) as [df|] eqn:Hdf.
    - rewrite (get_insight_by_developer_id_run g df id Hdf).
      split; [|discriminate]. destruct (filter _ df) as [|row0 rows]; [discriminate|].
      destruct (generate_insight_for_row_total row0) as [resp ->]. discriminate.
    - split; [done|]. intros _. unfold get_insight_by_developer_id. run_handler.
      by rewrite Hdf. }
  split; [exact Hget|]. split; [|split].
  - intros limit. destruct (df_clustered g) as [df|] eqn:Hdf.
    + rewrite (list_insights_run g df limit Hdf). split; [|discriminate].
      destruct (mapM_generate (head_rows limit df)) as (insights & -> & _). discriminate.
    + split; [done|]. intros _. unfold list_insights. run_handler. by rewrite Hdf.
  - eexists. split; [unfold answer; rewrite health_check_run; reflexivity|].
    cbn [data_loaded]. rewrite bool_decide_eq_false.
    destruct (df_clustered g); intuition congruence.
  - intros id Hnf Hnone. apply (proj2 (Hget id)) in Hnone. rewrite Hnone in Hnf.
    discriminate.
Qed.

Lemma dataset_unavailable_iff_witness :
  answer (get_insight_by_developer_id 11) no_globals = inl DatasetUnavailable /\
  answer (list_insights 5) no_globals = inl DatasetUnavailable.
Proof.
  destruct (dataset_unavailable_iff no_globals) as (Hget & Hlist & _). split.
  - apply Hget. reflexivity.
  - apply Hlist. reflexivity.
Defined.

(** ** Lookup against the stored order *)

Lemma filter_no_match (id : Z) rows :
  Forall (fun r => row_developer_id r <> id) rows ->
  filter (fun r => row_developer_id r = id) rows = [].
Proof.
  induction 1 as [|r rows Hr _ IH]; [reflexivity|].
  by rewrite filter_cons_False.
Qed.

Lemma first_match_run g (pre : list LearnerRecord) row post :
  df_clustered g = Some (pre ++ row :: post)%list ->
  Forall (fun r => row_developer_id r <> row_developer_id row) pre ->
  answer (get_insight_by_developer_id (row_developer_id row)) g
    = generate_insight_for_row row.
Proof.
  intros Hdf Hpre. rewrite (get_insight_by_developer_id_run g _ _ Hdf).
  rewrite filter_app, (filter_no_match _ pre Hpre), filter_cons_True by done.
  reflexivity.
Qed.

(** The listing of a valid limit: the insights of the first rows. *)
Lemma list_insights_route_run g df limit :
  df_clustered g = Some df -> 1 <= limit <= 100 ->
  exists insights,
    answer (list_insights_route (Some limit)) g = inr insights /\
    Forall2 (fun row ins => generate_insight_for_row row = inr ins)
      (take (Z.to_nat limit) df) insights.
Proof.
  intros Hdf Hrange.
  destruct (mapM_generate (take (Z.to_nat limit) df)) as (insights & Hm & Hall).
  exists insights. split; [|exact Hall].
  unfold list_insights_route. run_handler.
  rewrite (validate_limit_in_range limit Hrange).
  change (snd (list_insights limit g) = inr insights).
  fold (answer (list_insights limit) g). rewrite (list_insights_run g df limit Hdf).
  unfold head_rows. rewrite bool_decide_eq_true_2 by lia. exact Hm.
Qed.

(** X5. When several rows carry the requested id, the lookup answers the
    insight of the first of them in the stored order; rows after it play no
    part. *)
Theorem lookup_first_match g (pre : list LearnerRecord) row post :
  df_clustered g = Some (pre ++ row :: post)%list ->
  Forall (fun r => row_developer_id r <> row_developer_id row) pre ->
  answer (get_insight_by_developer_id (row_developer_id row)) g
    = generate_insight_for_row row.
Proof. apply first_match_run. Qed.

Lemma lookup_first_match_witness :
  answer (get_insight_by_developer_id 12)
    {| scaler := None; kmeans := None; df_clustered := Some df_with_duplicate |}
  = generate_insight_for_row (sample_row 12 "Budi" 1).
Proof.
  apply (lookup_first_match
           {| scaler := None; kmeans := None; df_clustered := Some df_with_duplicate |}
           [sample_row 11 "Ani" 0] (sample_row 12 "Budi" 1)
           [sample_row 12 "Budi lagi" 3] eq_refl).
  repeat constructor. discriminate.
Defined.

(** X6. When the developer ids of the dataset are pairwise distinct, every
    insight that the listing returns is the one the lookup of its
    [developer_id] returns. *)
Theorem listing_agrees_with_lookup g df limit insights ins :
  df_clustered g = Some df ->
  NoDup (row_developer_id <$> df) ->
  1 <= limit <= 100 ->
  answer (list_insights_route (Some limit)) g = inr insights ->
  ins ∈ insights ->
  answer (get_insight_by_developer_id (developer_id ins)) g = inr ins.
Proof.
  intros Hdf Hnodup Hrange Hlist Hin.
  destruct (list_insights_route_run g df limit Hdf Hrange) as (insights' & Hlist' & Hall).
  rewrite Hlist in Hlist'. injection Hlist' as <-.
  apply list_elem_of_lookup in Hin as [i Hi].
  destruct (Forall2_lookup_r _ _ _ _ _ Hall Hi) as (row & Hrow & Hgen).
  assert (Hrowin : row ∈ df).
  { apply (subseteq_take (Z.to_nat limit)). by eapply list_elem_of_lookup_2. }
  apply list_elem_of_split in Hrowin as (pre & post & ->).
  rewrite (generate_insight_for_row_id row ins Hgen), <- Hgen.
  apply (first_match_run g pre row post Hdf).
  rewrite fmap_app, fmap_cons in Hnodup.
  apply NoDup_app in Hnodup as (_ & Hdisj & _).
  apply Forall_forall. intros r Hr Heq.
  apply (Hdisj (row_developer_id r)); [by apply list_elem_of_fmap_2|].
  rewrite Heq. apply list_elem_of_here.
Qed.

Lemma listing_agrees_with_lookup_witness :
  exists insights ins,
    answer (list_insights_route (Some 2)) (sample_globals 0) = inr insights /\
    insights !! 1%nat = Some ins /\
    answer (get_insight_by_developer_id (developer_id ins)) (sample_globals 0) = inr ins.
Proof.
  destruct (list_insights_route_run (sample_globals 0) sample_df 2 eq_refl ltac:(lia))
    as (insights & Hlist & Hall).
  pose proof (Forall2_length _ _ _ Hall) as Hlen.
  destruct insights as [|i0 [|i1 rest]]; try discriminate.
  exists (i0 :: i1 :: rest), i1. split; [exact Hlist|]. split; [reflexivity|].
  apply (listing_agrees_with_lookup (sample_globals 0) sample_df 2 (i0 :: i1 :: rest));
    [reflexivity| |lia|exact Hlist|apply list_elem_of_further, list_elem_of_here].
  vm_compute. repeat constructor; rewrite ?elem_of_cons, ?elem_of_nil;
    intuition discriminate.
Defined.

Lemma Forall2_generate_functional rows insights1 insights2 :
  Forall2 (fun row ins => generate_insight_for_row row = inr ins) rows insights1 ->
  Forall2 (fun row ins => generate_insight_for_row row = inr ins) rows insights2 ->
  insights1 = insights2.
Proof.
  intros H. revert insights2.
  induction H as [|row ins rows insights Hrow _ IH]; intros insights2 H2;
    inversion H2 as [|? ins2 ? insights2' Hrow2 Hrest]; subst; [reflexivity|].
  rewrite Hrow in Hrow2. injection Hrow2 as <-. f_equal. by apply IH.
Qed.

(** X7. Listings nest: with the dataset loaded, the listing for a limit is
    the first [limit] insights of the listing for any larger limit. *)
Theorem listing_prefix g df small large insights_small insights_large :
  df_clustered g = Some df ->
  1 <= small -> small <= large -> large <= 100 ->
  answer (list_insights_route (Some small)) g = inr insights_small ->
  answer (list_insights_route (Some large)) g = inr insights_large ->
  insights_small = take (Z.to_nat small) insights_large.
Proof.
  intros Hdf H1 H2 H3 Hs Hl.
  destruct (list_insights_route_run g df small Hdf ltac:(lia)) as (ismall & Hs' & Halls).
  destruct (list_insights_route_run g df large Hdf ltac:(lia)) as (il & Hl' & Halll).
  rewrite Hs in Hs'. injection Hs' as <-. rewrite Hl in Hl'. injection Hl' as <-.
  apply (Forall2_take _ _ _ (Z.to_nat small)) in Halll.
  rewrite take_take, Nat.min_l in Halll by lia.
  by eapply Forall2_generate_functional.
Qed.

Lemma listing_prefix_witness :
  exists insights_small insights_large,
    answer (list_insights_route (Some 2)) (sample_globals 0) = inr insights_small /\
    answer (list_insights_route (Some 100)) (sample_globals 0) = inr insights_large /\
    insights_small = take 2 insights_large.
Proof.
  destruct (list_insights_route_run (sample_globals 0) sample_df 2 eq_refl ltac:(lia))
    as (ismall & Hs & _).
  destruct (list_insights_route_run (sample_globals 0) sample_df 100 eq_refl ltac:(lia))
    as (il & Hl & _).
  exists ismall, il. split; [exact Hs|]. split; [exact Hl|].
  apply (listing_prefix (sample_globals 0) sample_df 2 100 ismall il eq_refl);
    [lia|lia|lia|exact Hs|exact Hl].
Defined.

(** ** Loading *)

Lemma required_cols_present raw :
  filter (fun c => c ∉ columns raw) REQUIRED_COLS = []
  <-> forall c, c ∈ REQUIRED_COLS -> c ∈ columns raw.
Proof.
  split.
  - intros Hnil c Hc. destruct (decide (c ∈ columns raw)) as [|Hmissing]; [done|].
    by destruct (filter_nil_not_elem_of _ _ c Hnil Hmissing).
  - intros Hall.
    destruct (filter (fun c => c ∉ columns raw) REQUIRED_COLS) as [|c cs] eqn:Hf;
      [reflexivity|].
    assert (Hc : c ∈ filter (fun c => c ∉ columns raw) REQUIRED_COLS)
      by (rewrite Hf; apply list_elem_of_here).
    apply list_elem_of_filter in Hc as [Hmissing Hc]. by destruct (Hmissing (Hall c Hc)).
Qed.

(** X8. After the [try] block the dataset is loaded, beside a scaler [sc]
    and a model [km] (each an object or [None]), exactly when the two
    [pickle.load] calls return [sc] and [km] without raising, the CSV is
    read, each of the eight required columns is among its columns (in any
    order, with any further columns) and the cluster labels convert to
    integers; the dataset is then the converted frame. *)
Theorem load_artifacts_succeeds_iff d sc km df :
  load_artifacts d = {| scaler := sc; kmeans := km; df_clustered := Some df |}
  <-> scaler_pkl d = inr sc /\ kmeans_model_pkl d = inr km /\
      exists raw, clustered_students_csv d = inr raw /\
        (forall c, c ∈ REQUIRED_COLS -> c ∈ columns raw) /\
        cluster_label_astype_int raw = inr df.
Proof.
  unfold load_artifacts, load_try.
  destruct (scaler_pkl d) as [e1|sc']; cbn [mbind result_bind].
  { split; [discriminate|]. by intros ([=] & _). }
  destruct (kmeans_model_pkl d) as [e2|km']; cbn [mbind result_bind].
  { split; [discriminate|]. by intros (_ & [=] & _). }
  destruct (clustered_students_csv d) as [e3|raw]; cbn [mbind result_bind].
  { split; [discriminate|]. by intros (_ & _ & raw & [=] & _). }
  case_bool_decide as Hcols.
  - pose proof (proj1 (required_cols_present raw) Hcols) as Hpresent.
    destruct (cluster_label_astype_int raw) as [e4|df'] eqn:Hdf; cbn [mbind result_bind].
    + split; [discriminate|]. intros (_ & _ & raw' & [= <-] & _ & Hdf').
      rewrite Hdf in Hdf'. discriminate.
    + split.
      * intros [= -> -> ->]. eauto 10.
      * intros ([= ->] & [= ->] & raw' & [= <-] & _ & Hdf').
        rewrite Hdf in Hdf'. by injection Hdf' as ->.
  - split; [discriminate|]. intros (_ & _ & raw' & [= <-] & Hall & _).
    destruct (Hcols (proj2 (required_cols_present raw) Hall)).
Qed.

Lemma load_artifacts_succeeds_iff_witness :
  load_artifacts good_disk
  = {| scaler := Some stub_scaler; kmeans := Some (stub_kmeans 0);
       df_clustered := Some sample_df |} /\
  load_artifacts disk_scaler_none
  = {| scaler := None; kmeans := Some (stub_kmeans 0); df_clustered := Some sample_df |}.
Proof.
  split; apply load_artifacts_succeeds_iff.
  all: split; [reflexivity|]; split; [reflexivity|];
    exists good_frame; split; [reflexivity|]; split; [|reflexivity];
    intros c Hc; cbn [columns good_frame]; by apply list_elem_of_further.
Defined.

(** ** Known clusters: a complete insight *)

Lemma all_chars_app P s t :
  all_chars P (s +:+ t) = all_chars P s && all_chars P t.
Proof.
  induction s as [|c s IH]; simpl; [reflexivity|].
  by rewrite IH, andb_assoc.
Qed.

Lemma all_chars_frac_digits P p r acc :
  (forall d, P (pretty_N_char d) = true) ->
  all_chars P acc = true -> all_chars P (frac_digits p r acc) = true.
Proof.
  intros HP. revert r acc. induction p as [|p IH]; intros r acc Hacc; [exact Hacc|].
  cbn [frac_digits]. apply IH. cbn [all_chars]. by rewrite HP, Hacc.
Qed.

Lemma no_brace_digit d : no_brace (pretty_N_char d) = true.
Proof. unfold pretty_N_char. by repeat case_match. Qed.

Lemma no_brace_fixed_digits p q : all_chars no_brace (fixed_digits p q) = true.
Proof.
  unfold fixed_digits. destruct p as [|p].
  - apply all_chars_pretty_N, no_brace_digit.
  - rewrite all_chars_app, all_chars_pretty_N by apply no_brace_digit.
    rewrite all_chars_app. cbn [andb]. apply andb_true_intro. split; [reflexivity|].
    by apply all_chars_frac_digits; [apply no_brace_digit|].
Qed.

(** A rendered number never contains a brace. *)
Lemma no_brace_format_f p x : all_chars no_brace (format_f p x) = true.
Proof.
  destruct x as [s|s| |s m e]; cbn [format_f]; [| |reflexivity|].
  - rewrite all_chars_app, no_brace_fixed_digits. by destruct s.
  - by destruct s.
  - rewrite all_chars_app, no_brace_fixed_digits. by destruct s.
Qed.

Lemma all_chars_concat P l :
  Forall (fun s => all_chars P s = true) l -> all_chars P (String.concat "" l) = true.
Proof.
  induction 1 as [|s l Hs Hl IH]; [reflexivity|].
  cbn [String.concat]. destruct l as [|s' l]; [exact Hs|].
  change (all_chars P (s +:+ "" +:+ String.concat "" (s' :: l)) = true).
  rewrite all_chars_app, Hs. exact IH.
Qed.

(** The literal text of every template of the table is free of braces and
    opens the template. *)
Lemma template_shape a t j r s cid tpl :
  CLUSTER_TEMPLATES !! cid = Some tpl ->
  exists items, markup (format_kwargs a t j r s) tpl = inr items /\
    forallb literal_ok items = true /\ starts_with_text items = true.
Proof.
  intros H. known_template H.
  all: match goal with |- exists items, markup ?kw ?tpl = _ /\ _ =>
    assert (Hc : match markup kw tpl with
                 | inr items => forallb literal_ok items && starts_with_text items
                 | inl _ => false
                 end = true) by (vm_compute; reflexivity);
    destruct (markup kw tpl) as [e|items]; [discriminate|];
    apply andb_prop in Hc; eauto
  end.
Qed.

Lemma known_insight_text a t j r s cid :
  is_Some (CLUSTER_TEMPLATES !! cid) ->
  exists text,
    format (default "" (CLUSTER_TEMPLATES !! cid)) (format_kwargs a t j r s) = inr text /\
    text <> "" /\ all_chars no_brace text = true.
Proof.
  intros [tpl Htpl]. rewrite Htpl. change (default "" (Some tpl)) with tpl.
  destruct (template_shape a t j r s cid tpl Htpl) as (items & Hm & Hlit & Hstart).
  unfold format. rewrite Hm. eexists. split; [reflexivity|]. split.
  - destruct items as [|[[|c txt]|] items]; try discriminate.
    cbn [fmap list_fmap item_text String.concat].
    destruct (item_text <$> items); discriminate.
  - apply all_chars_concat, Forall_fmap.
    pose proof (markup_sound _ _ _ Hm) as Hsound.
    pose proof (forallb_Forall _ _ Hlit) as Hlits.
    assert (Hboth : Forall (fun i => item_sound (format_kwargs a t j r s) i
                                     /\ literal_ok i = true) items)
      by (apply Forall_and; auto).
    eapply Forall_impl; [exact Hboth|]. intros [txt|name spec txt] [Hs Hl]; [exact Hl|].
    destruct Hs as (x & p & _ & _ & ->). apply no_brace_format_f.
Qed.

Lemma known_profile_fields cid :
  is_Some (CLUSTER_PROFILES !! cid) ->
  let profile := default ∅ (CLUSTER_PROFILES !! cid) in
  default (fallback_label cid) (profile !! "label_id") <> "" /\
  default (fallback_label cid) (profile !! "label_id") <> fallback_label cid /\
  is_Some (profile !! "concept_tag") /\
  default "" (profile !! "short_description") <> "".
Proof.
  intros H%CLUSTER_PROFILES_dom.
  destruct H as [ -> | [ -> | [ -> | -> ] ] ]; vm_compute; repeat split; eauto;
    discriminate.
Qed.

(** X9. For a cluster id of the tables, both resolvers answer a complete
    insight: the label is the table's (not empty, not the fallback), the
    concept tag is present, the description is not empty, and the insight
    text is not empty and has no brace left in it, that is, no placeholder
    is left unexpanded, whatever the five floats. *)
Theorem known_cluster_insight cid :
  is_Some (CLUSTER_PROFILES !! cid) ->
  (forall row, row_cluster_label row = cid ->
     exists resp, generate_insight_for_row row = inr resp /\
       cluster_label resp <> "" /\ cluster_label resp <> fallback_label cid /\
       is_Some (concept_tag resp) /\ short_description resp <> "" /\
       insight_text resp <> "" /\ all_chars no_brace (insight_text resp) = true) /\
  (forall g sc km payload rest,
     scaler g = Some sc -> kmeans g = Some km ->
     predict km (transform sc (request_matrix payload)) = cid :: rest ->
     exists resp, answer (predict_cluster payload) g = inr resp /\
       p_cluster_label resp <> "" /\ p_cluster_label resp <> fallback_label cid /\
       is_Some (p_concept_tag resp) /\ p_short_description resp <> "" /\
       p_insight_text resp <> "" /\ all_chars no_brace (p_insight_text resp) = true).
Proof.
  intros Hcid.
  assert (Htpl : is_Some (CLUSTER_TEMPLATES !! cid))
    by (apply CLUSTER_TEMPLATES_dom, CLUSTER_PROFILES_dom, Hcid).
  destruct (known_profile_fields cid Hcid) as (Hl & Hf & Hc & Hd). split.
  - intros row <-.
    destruct (generate_insight_for_row_run row) as (text & Ht & ->).
    destruct (known_insight_text (row_total_active_days row)
                (row_avg_completion_time_hours row) (row_total_journeys_completed row)
                (row_rejection_ratio row) (row_avg_exam_score row) _ Htpl)
      as (text' & Ht' & Hne & Hnb).
    unfold row_kwargs in Ht. rewrite Ht' in Ht. injection Ht as <-.
    eexists. split; [reflexivity|].
    cbn [cluster_label concept_tag short_description insight_text]. auto 10.
  - intros g sc km payload rest Hs Hk Hp.
    destruct (predict_cluster_run g sc km payload cid rest Hs Hk Hp) as (text & Ht & H).
    destruct (known_insight_text (total_active_days payload)
                (avg_completion_time_hours payload) (total_journeys_completed payload)
                (rejection_ratio payload) (avg_exam_score payload) _ Htpl)
      as (text' & Ht' & Hne & Hnb).
    unfold request_kwargs in Ht. rewrite Ht' in Ht. injection Ht as <-.
    unfold answer. rewrite H. eexists. split; [reflexivity|].
    cbn [p_cluster_label p_concept_tag p_short_description p_insight_text]. auto 10.
Qed.

Lemma known_cluster_insight_witness :
  (exists resp, generate_insight_for_row (sample_row 12 "Budi" 1) = inr resp /\
     insight_text resp <> "" /\ all_chars no_brace (insight_text resp) = true) /\
  (exists resp,
     answer (predict_cluster (sample_features None)) (sample_globals 2) = inr resp /\
     p_insight_text resp <> "" /\ all_chars no_brace (p_insight_text resp) = true).
Proof.
  assert (H1 : is_Some (CLUSTER_PROFILES !! 1)) by (apply CLUSTER_PROFILES_dom; lia).
  assert (H2 : is_Some (CLUSTER_PROFILES !! 2)) by (apply CLUSTER_PROFILES_dom; lia).
  split.
  - destruct (proj1 (known_cluster_insight 1 H1) (sample_row 12 "Budi" 1) eq_refl)
      as (resp & Hr & _ & _ & _ & _ & Hne & Hnb). eauto.
  - destruct (proj2 (known_cluster_insight 2 H2) (sample_globals 2) stub_scaler
                (stub_kmeans 2) (sample_features None) [] eq_refl eq_refl eq_refl)
      as (resp & Hr & _ & _ & _ & _ & Hne & Hnb). eauto.
Defined.

(** X10. The fallback shows in every field at once: in the insight of a
    row, the concept tag is absent exactly when the cluster id is not in the
    profile table, and exactly then the insight text is empty, the
    description is empty and the label is the fallback label. *)
Theorem fallback_signals_coincide row resp :
  generate_insight_for_row row = inr resp ->
  (concept_tag resp = None <-> CLUSTER_PROFILES !! row_cluster_label row = None) /\
  (insight_text resp = "" <-> CLUSTER_PROFILES !! row_cluster_label row = None) /\
  (short_description resp = "" <-> CLUSTER_PROFILES !! row_cluster_label row = None) /\
  (cluster_label resp = fallback_label (row_cluster_label row)
     <-> CLUSTER_PROFILES !! row_cluster_label row = None).
Proof.
  intros Hresp.
  destruct (generate_insight_for_row_run row) as (text & Ht & Hrun).
  rewrite Hrun in Hresp. injection Hresp as <-.
  cbn [concept_tag insight_text short_description cluster_label].
  destruct (CLUSTER_PROFILES !! row_cluster_label row) as [meta|] eqn:Hcid.
  - assert (Hknown : is_Some (CLUSTER_PROFILES !! row_cluster_label row))
      by (rewrite Hcid; eauto).
    destruct (known_profile_fields _ Hknown) as (_ & Hf & [tag Htag] & Hd).
    rewrite Hcid in Hf, Htag, Hd.
    destruct (known_insight_text (row_total_active_days row)
                (row_avg_completion_time_hours row) (row_total_journeys_completed row)
                (row_rejection_ratio row) (row_avg_exam_score row) (row_cluster_label row))
      as (text' & Ht' & Hne & _).
    { by apply CLUSTER_TEMPLATES_dom, CLUSTER_PROFILES_dom. }
    unfold row_kwargs in Ht. rewrite Ht' in Ht. injection Ht as <-.
    rewrite Htag. repeat split; intros; try discriminate; contradiction.
  - assert (Hunknown : CLUSTER_PROFILES !! row_cluster_label row = None) by exact Hcid.
    destruct (unknown_profile_fields _ Hunknown) as (Hl & Htag & Hd).
    rewrite Hcid in Hl, Htag, Hd.
    rewrite (proj1 (tables_same_keys _) Hunknown) in Ht.
    change (default "" None) with "" in Ht. rewrite format_empty in Ht.
    injection Ht as <-. repeat split; auto.
Qed.

Lemma fallback_signals_coincide_witness :
  exists resp,
    generate_insight_for_row (sample_row 14 "Dewi" 7) = inr resp /\
    (concept_tag resp = None <-> insight_text resp = "").
Proof.
  destruct (generate_insight_for_row_total (sample_row 14 "Dewi" 7)) as [resp Hresp].
  exists resp. split; [exact Hresp|].
  destruct (fallback_signals_coincide _ resp Hresp) as (Htag & Htext & _).
  rewrite Htag, Htext. reflexivity.
Defined.
